(** * HederaPay P2P gasless payments: the topic log and its readers

    A shallow embedding of the p2p-plugin tools

      - [tools/query-gasless-payments.ts]  (the read path),
      - [tools/create-gasless-payment.ts], [tools/sign-gasless-payment.ts],
        [tools/relay-gasless-payment.ts]   (the write path),

    and the properties of the payment protocol that they do, or do not,
    establish.

    Conventions of the embedding.

    - A JSON payload is a record of optional fields: [None] is JavaScript's
      [undefined] (the key is absent).  Numbers that are compared or used for
      ordering (timestamps, sequence numbers, nonces) are in [Z]; amounts and
      fees, which the code only copies and tests for zero, are in [Q].
    - [Buffer.from(_, 'base64')] and [JSON.parse] are kept abstract: a topic
      message carries its payload in decoded form, [None] standing for a
      payload on which [JSON.parse] throws.
    - [Date.now()] is the function [clock] of the number of readings taken
      so far; every reading advances the counter. *)

From Stdlib Require Import ZArith QArith String Ascii List Lia.
From stdpp Require Import base option list gmap strings pretty sorting.

Local Open Scope string_scope.
Local Open Scope Z_scope.

(** ** Enumerations of [p2p.zod.ts] *)

Inductive P2PPaymentType := HBAR_TRANSFER | TOKEN_TRANSFER | NFT_TRANSFER.

Inductive P2PPaymentStatus := PENDING | SIGNED | RELAYED | COMPLETED | FAILED | EXPIRED.

Definition paymentTypeValue (t : P2PPaymentType) : string :=
  match t with
  | HBAR_TRANSFER => "hbar_transfer"
  | TOKEN_TRANSFER => "token_transfer"
  | NFT_TRANSFER => "nft_transfer"
  end.

Definition statusValue (s : P2PPaymentStatus) : string :=
  match s with
  | PENDING => "pending"
  | SIGNED => "signed"
  | RELAYED => "relayed"
  | COMPLETED => "completed"
  | FAILED => "failed"
  | EXPIRED => "expired"
  end.

(** ** Payloads and topic messages *)

(** The union of the keys of the four message shapes. *)
Record Data := mkData {
  version : option string;
  type_ : option string;
  paymentRequestId : option string;
  timestamp : option Z;
  sender : option string;
  paymentType : option string;
  recipientAccountId : option string;
  tokenId : option string;
  nftSerialNumber : option Z;
  amount : option Q;
  sponsorAccountId : option string;
  maxFee : option Q;
  expirationTime : option Z;
  memo : option string;
  nonce : option Z;
  transactionBytes : option string;
  status : option string;
  signedTransactionBytes : option string;
  originalSequenceNumber : option Z;
  transactionId : option string;
  sponsor : option string;
  gasPaid : option Q;
  sponsorFee : option Q;
  relayed : option bool
}.

Definition emptyData : Data :=
  mkData None None None None None None None None None None None None
         None None None None None None None None None None None None.

(** One entry of the list returned by [mirrornodeService.getTopicMessages]. *)
Record TopicMessage := mkTopicMessage {
  sequence_number : Z;
  consensus_timestamp : string;
  message : option Data
}.

(** JavaScript truthiness of the values that the code tests. *)
Definition truthyStr (s : option string) : bool :=
  match s with Some s => negb (bool_decide (s = "")) | None => false end.

Definition truthyNum (n : option Z) : bool :=
  match n with Some n => negb (n =? 0) | None => false end.

Definition truthyQ (q : option Q) : bool :=
  match q with Some q => negb (Qeq_bool q 0) | None => false end.

Definition truthyBool (b : option bool) : bool :=
  match b with Some b => b | None => false end.

Definition hasType (data : Data) (t : string) : bool :=
  bool_decide (type_ data = Some t).

(** ** The read path: [query-gasless-payments.ts] *)

Module Query.

(** The object stored in [statusUpdates] (lines 105-112). *)
Record StatusUpdate := mkStatusUpdate {
  su_status : string;
  su_transactionId : option string;
  su_sponsor : option string;
  su_gasPaid : option Q;
  su_sponsorFee : option Q;
  su_timestamp : option Z
}.

(** The object pushed on [payments]: the spread of the request payload plus
    the keys that the loop adds. *)
Record Payment := mkPayment {
  fields : Data;
  sequenceNumber : Z;
  consensusTimestamp : string;
  signedAt : option Z;
  signedSequenceNumber : option Z
}.

Record Filters := mkFilters {
  senderAccountIdF : option string;
  recipientAccountIdF : option string;
  paymentTypeF : option P2PPaymentType;
  statusF : option P2PPaymentStatus;
  limitF : option Z
}.

Definition noFilters : Filters := mkFilters None None None None None.

Definition setStatus (s : option string) (d : Data) : Data :=
  mkData (version d) (type_ d) (paymentRequestId d) (timestamp d) (sender d)
         (paymentType d) (recipientAccountId d) (tokenId d) (nftSerialNumber d)
         (amount d) (sponsorAccountId d) (maxFee d) (expirationTime d) (memo d)
         (nonce d) (transactionBytes d) s (signedTransactionBytes d)
         (originalSequenceNumber d) (transactionId d) (sponsor d) (gasPaid d)
         (sponsorFee d) (relayed d).

(** [Object.assign(payment, statusUpdate)]: every key of the update is
    written, also those whose value is [undefined]. *)
Definition assignUpdate (u : StatusUpdate) (d : Data) : Data :=
  mkData (version d) (type_ d) (paymentRequestId d) (su_timestamp u) (sender d)
         (paymentType d) (recipientAccountId d) (tokenId d) (nftSerialNumber d)
         (amount d) (sponsorAccountId d) (maxFee d) (expirationTime d) (memo d)
         (nonce d) (transactionBytes d) (Some (su_status u))
         (signedTransactionBytes d) (originalSequenceNumber d)
         (su_transactionId u) (su_sponsor u) (su_gasPaid u) (su_sponsorFee u)
         (relayed d).

(** Lines 105-112. *)
Definition statusUpdateOf (data : Data) : StatusUpdate :=
  mkStatusUpdate
    (if hasType data "gasless_payment_completed" then "completed" else "failed")
    (transactionId data) (sponsor data) (gasPaid data) (sponsorFee data)
    (timestamp data).

(** Lines 118-123: [payments.find] returns the first record with the id, and
    the three assignments mutate that record in place. *)
Definition signRecord (data : Data) (seq : Z) (p : Payment) : Payment :=
  mkPayment (setStatus (Some "signed") (fields p)) (sequenceNumber p)
            (consensusTimestamp p) (timestamp data) (Some seq).

Fixpoint markSigned (data : Data) (seq : Z) (ps : list Payment) : list Payment :=
  match ps with
  | [] => []
  | p :: ps' =>
      if bool_decide (paymentRequestId (fields p) = paymentRequestId data)
      then signRecord data seq p :: ps'
      else p :: markSigned data seq ps'
  end.

(** The state of the loop of lines 98-170. *)
Record State := mkState {
  payments : list Payment;
  statusUpdates : gmap (option string) StatusUpdate;
  reads : nat
}.

Definition initial (reads0 : nat) : State := mkState [] ∅ reads0.

Section Loop.

Variable clock : nat -> Z.

(** Lines 141-144.  [Date.now()] is read only when [expirationTime] is
    truthy. *)
Definition checkExpiration (k : nat) (p : Payment) : Payment * nat :=
  if truthyNum (expirationTime (fields p)) then
    if match expirationTime (fields p) with
       | Some e => e <? clock k
       | None => false
       end
       && bool_decide (status (fields p) = Some "pending")
    then (mkPayment (setStatus (Some (statusValue EXPIRED)) (fields p))
                    (sequenceNumber p) (consensusTimestamp p) (signedAt p)
                    (signedSequenceNumber p), S k)
    else (p, S k)
  else (p, k).

(** Lines 146-161: [true] when one of the four [continue]s is taken. *)
Definition filteredOut (filters : option Filters) (p : Payment) : bool :=
  match filters with
  | None => false
  | Some f =>
      (truthyStr (senderAccountIdF f)
         && negb (bool_decide (sender (fields p) = senderAccountIdF f)))
      || (truthyStr (recipientAccountIdF f)
         && negb (bool_decide (recipientAccountId (fields p) = recipientAccountIdF f)))
      || match paymentTypeF f with
         | Some t => negb (bool_decide (paymentType (fields p) = Some (paymentTypeValue t)))
         | None => false
         end
      || match statusF f with
         | Some s => negb (bool_decide (status (fields p) = Some (statusValue s)))
         | None => false
         end
  end.

(** Lines 129-139. *)
Definition materialize (st : State) (msg : TopicMessage) (data : Data) : Payment :=
  let payment := mkPayment data (sequence_number msg) (consensus_timestamp msg) None None in
  match statusUpdates st !! paymentRequestId data with
  | Some u => mkPayment (assignUpdate u data) (sequence_number msg)
                        (consensus_timestamp msg) None None
  | None => payment
  end.

(** The body of the loop, lines 99-169. *)
Definition processMessage (filters : option Filters) (st : State) (msg : TopicMessage) : State :=
  match message msg with
  | None => st
  | Some data =>
      if hasType data "gasless_payment_completed" || hasType data "gasless_payment_failed" then
        mkState (payments st)
                (<[paymentRequestId data := statusUpdateOf data]> (statusUpdates st))
                (reads st)
      else if hasType data "gasless_payment_signed" then
        mkState (markSigned data (sequence_number msg) (payments st))
                (statusUpdates st) (reads st)
      else if hasType data "gasless_payment_request" then
        let (payment, k) := checkExpiration (reads st) (materialize st msg data) in
        if filteredOut filters payment
        then mkState (payments st) (statusUpdates st) k
        else mkState (payments st ++ [payment]) (statusUpdates st) k
      else st
  end.

Definition runLoop (filters : option Filters) (st : State) (messages : list TopicMessage) : State :=
  fold_left (processMessage filters) messages st.

(** [payments.sort((a, b) => b.timestamp - a.timestamp)]: a stable sort,
    newest first, written as an insertion sort.  When a timestamp is
    [undefined] the comparator yields [NaN], which the sort treats as 0; the
    order that the JavaScript engine then produces is its own, and nothing
    below depends on it. *)
Definition compareFn (a b : Payment) : Z :=
  match timestamp (fields b), timestamp (fields a) with
  | Some tb, Some ta => tb - ta
  | _, _ => 0
  end.

Fixpoint insertSorted (x : Payment) (l : list Payment) : list Payment :=
  match l with
  | [] => [x]
  | y :: l' => if compareFn x y <=? 0 then x :: y :: l' else y :: insertSorted x l'
  end.

Definition sortPayments (l : list Payment) : list Payment :=
  fold_right insertSorted [] l.

(** [payments.slice(0, limit)]; a negative end counts from the end. *)
Definition slice0 (ps : list Payment) (n : Z) : list Payment :=
  if 0 <=? n then take (Z.to_nat n) ps
  else take (Z.to_nat (Z.of_nat (List.length ps) + n)) ps.

(** Lines 92-180, where [messages] is what
    [mirrornodeService.getTopicMessages(topicId)] returned and [reads0] the
    number of clock readings taken before the call. *)
Definition queryPaymentsFromTopic
    (messages : list TopicMessage) (filters : option Filters) (reads0 : nat) : list Payment :=
  let sorted := sortPayments (payments (runLoop filters (initial reads0) messages)) in
  match filters with
  | Some f => if truthyNum (limitF f) then slice0 sorted (default 0 (limitF f)) else sorted
  | None => sorted
  end.

End Loop.

(** *** Vocabulary of the properties *)

Definition isTerminal (data : Data) : bool :=
  hasType data "gasless_payment_completed" || hasType data "gasless_payment_failed".

Definition isSigned (data : Data) : bool := hasType data "gasless_payment_signed".

Definition isRequest (data : Data) : bool := hasType data "gasless_payment_request".

(** A message of the given kind that refers to the request [id]. *)
Definition refersTo (kind : Data -> bool) (id : option string) (msg : TopicMessage) : bool :=
  match message msg with
  | Some data => kind data && bool_decide (paymentRequestId data = id)
  | None => false
  end.

(** Filters that let every record through, and filters without a limit. *)
Definition noCriteria (filters : option Filters) : bool :=
  match filters with
  | None => true
  | Some f =>
      negb (truthyStr (senderAccountIdF f))
      && negb (truthyStr (recipientAccountIdF f))
      && match paymentTypeF f with None => true | Some _ => false end
      && match statusF f with None => true | Some _ => false end
  end.

Definition noLimit (filters : option Filters) : bool :=
  match filters with
  | None => true
  | Some f => negb (truthyNum (limitF f))
  end.

(** The id of a record and the sequence number of the message it was built
    from. *)
Definition recordKey (p : Payment) : option string * Z :=
  (paymentRequestId (fields p), sequenceNumber p).

Definition requestKey (msg : TopicMessage) : option (option string * Z) :=
  match message msg with
  | Some data =>
      if isRequest data then Some (paymentRequestId data, sequence_number msg) else None
  | None => None
  end.

Definition requestKeys (messages : list TopicMessage) : list (option string * Z) :=
  omap requestKey messages.

(** A record that is not PENDING past a set expiration time, as seen when
    the query started at the reading [reads0]; and what the loop maintains. *)
Definition notPastExpiry (clock : nat -> Z) (reads0 : nat) (p : Payment) : Prop :=
  forall e, status (fields p) = Some "pending" ->
            expirationTime (fields p) = Some e -> e <> 0 -> clock reads0 <= e.

Definition expiryInvariant (clock : nat -> Z) (reads0 : nat) (st : State) : Prop :=
  (reads0 <= reads st)%nat /\ Forall (notPastExpiry clock reads0) (payments st).



(** Two loop states that hold the same records and have read the clock
    equally often, and whose status tables agree on every id but [id]. *)
Definition sameButUpdateOf (id : option string) (st st' : State) : Prop :=
  payments st = payments st'
  /\ reads st = reads st'
  /\ forall k, k <> id -> statusUpdates st !! k = statusUpdates st' !! k.

(** A message that the loop passes over: its payload does not parse, or its
    [type] is none of the four literals. *)
Definition passedOver (msg : TopicMessage) : bool :=
  match message msg with
  | None => true
  | Some data => negb (isTerminal data) && negb (isSigned data) && negb (isRequest data)
  end.

(** The filters [f] with another [limit]. *)
Definition withLimit (limit : option Z) (f : Filters) : Filters :=
  mkFilters (senderAccountIdF f) (recipientAccountIdF f) (paymentTypeF f) (statusF f) limit.

(** [a] may stand before [b] in an answer sorted newest first: both carry a
    timestamp and [a] is not the older one. *)
Definition notOlder (a b : Payment) : Prop :=
  match timestamp (fields a), timestamp (fields b) with
  | Some ta, Some tb => tb <= ta
  | _, _ => False
  end.

(** What the sender, recipient and type criteria of [f] ask of a record. *)
Definition meetsCriteria (f : Filters) (p : Payment) : Prop :=
  (truthyStr (senderAccountIdF f) = true -> sender (fields p) = senderAccountIdF f)
  /\ (truthyStr (recipientAccountIdF f) = true ->
      recipientAccountId (fields p) = recipientAccountIdF f)
  /\ (forall t, paymentTypeF f = Some t ->
      paymentType (fields p) = Some (paymentTypeValue t)).

(** What the status criterion of [f] leaves in the answer. *)
Definition statusAsAskedOrSigned (f : Filters) (p : Payment) : Prop :=
  forall s, statusF f = Some s ->
    status (fields p) = Some (statusValue s) \/ status (fields p) = Some "signed".

(** No REQUEST payload of the log says "signed" in its own [status]. *)
Definition requestNotSigned (msg : TopicMessage) : Prop :=
  forall data, message msg = Some data -> isRequest data = true ->
    status data <> Some "signed".

(** The loop state of a query for signed requests: nothing pushed, and no
    stored update that says "signed". *)
Definition nothingSigned (st : State) : Prop :=
  payments st = []
  /\ forall id u, statusUpdates st !! id = Some u -> su_status u <> "signed".

(** The loop state over a log of stamped messages: every record and every
    stored update carries a timestamp. *)
Definition hasTimestamp (p : Payment) : Prop := is_Some (timestamp (fields p)).

Definition allStamped (st : State) : Prop :=
  Forall hasTimestamp (payments st)
  /\ forall id u, statusUpdates st !! id = Some u -> is_Some (su_timestamp u).

(** Every payload that parses carries a [timestamp]. *)
Definition stamped (msg : TopicMessage) : Prop :=
  forall data, message msg = Some data -> is_Some (timestamp data).

End Query.

(** ** Request ids: [generatePaymentRequestId] of [create-gasless-payment.ts] *)

Module Id.

Definition alphabet : list ascii :=
  list_ascii_of_string
    "ABCDEFGHIJKLMNOPQRSTUVWXYZabcdefghijklmnopqrstuvwxyz0123456789+/".

Definition digit (n : N) : ascii := nth (N.to_nat n) alphabet "="%char.

(** [Buffer.prototype.toString('base64')]: three bytes give four characters
    of the alphabet of RFC 4648, the last group is padded with [=]. *)
Fixpoint base64 (bytes : list N) : string :=
  match bytes with
  | [] => ""
  | [a] =>
      String (digit (a / 4)) (String (digit ((a mod 4) * 16)) "==")
  | [a; b] =>
      String (digit (a / 4))
        (String (digit ((a mod 4) * 16 + b / 16))
           (String (digit ((b mod 16) * 4)) "="))
  | a :: b :: c :: rest =>
      String (digit (a / 4))
        (String (digit ((a mod 4) * 16 + b / 16))
           (String (digit ((b mod 16) * 4 + c / 64))
              (String (digit (c mod 64)) (base64 rest))))
  end%N.

(** [Buffer.from(s)]: the bytes of the string. *)
Definition bufferFrom (s : string) : list N := map N_of_ascii (list_ascii_of_string s).

(** Lines 646-649 of the create tool; [pretty] prints the nonce in decimal,
    as the template literal does for an integer below 10^21.  For any other
    number the text that is encoded is another one; [idOfText] below is the
    function on that text. *)
Definition generatePaymentRequestId (sender recipient : string) (nonce : Z) : string :=
  let hash := sender ++ "-" ++ recipient ++ "-" ++ pretty nonce in
  substring 0 32 (base64 (bufferFrom hash)).

(** *** Vocabulary of the properties *)

(** The place of a character in the alphabet, 64 for a character that is not
    in it. *)
Fixpoint indexIn (c : ascii) (l : list ascii) : N :=
  match l with
  | [] => 0
  | d :: l' => if bool_decide (c = d) then 0 else N.succ (indexIn c l')
  end.

Definition digitValue (c : ascii) : N := indexIn c alphabet.

Definition isByte (a : N) : Prop := (a < 256)%N.

(** The text that is encoded. *)
Definition idText (sender recipient : string) (nonce : Z) : string :=
  sender ++ "-" ++ recipient ++ "-" ++ pretty nonce.

(** Line 648 alone: the id of the text [data] that the template literal of
    line 647 has built, in whichever form it has printed the nonce. *)
Definition idOfText (data : string) : string :=
  substring 0 32 (base64 (bufferFrom data)).

End Id.

(** ** The write path: the create, sign and relay tools *)

Module Tools.

Record Client := mkClient {
  operatorAccountId : option string;
  operatorPrivateKey : option string
}.

(** [mirrornodeService] tells whether [context.mirrornodeService] is set. *)
Record Context := mkContext {
  mirrornodeService : bool;
  p2pTopicId : option string
}.

(** What the create tool puts into its [TransferTransaction]. *)
Inductive Transfer :=
| HbarTransfer (account : option string) (value : Q)
| TokenTransfer (token : option string) (account : option string) (value : Q)
| NftTransfer (token : option string) (serial : option Z) (from to : option string).

Record TransferTransaction := mkTransferTransaction {
  transfers : list Transfer;
  transactionMemo : option string;
  maxTransactionFee : option Q
}.

(** The collaborators outside the repository: the clock, the SDK's
    transaction codec and signer, and the ledger.  An operation answers
    [None] when the SDK call throws.
    - [freezeToBytes tx]: [tx.freeze().toBytes()], in base64;
    - [signBytes bytes key]: [Transaction.fromBytes(bytes).sign(key).toBytes()];
    - [executeBytes executed bytes]: [tx.execute(client)] and its receipt on a
      ledger that has executed [executed], answering the transaction id;
    - [consensusStamp n]: the consensus timestamp of the [n]-th message. *)
Class Network := mkNetwork {
  clock : nat -> Z;
  freezeToBytes : TransferTransaction -> option string;
  signBytes : string -> option string -> option string;
  executeBytes : list string -> string -> option string;
  consensusStamp : Z -> string
}.

Record World := mkWorld {
  topics : gmap string (list TopicMessage);
  ledger : list string;
  ticks : nat;
  env_P2P_GASLESS_TOPIC_ID : option string
}.

(** *** Exceptions and effects *)

Inductive Outcome (A : Type) :=
| Returned (a : A)
| Thrown (reason : string).
Arguments Returned {A} a.
Arguments Thrown {A} reason.

Definition M (A : Type) : Type := World -> Outcome A * World.

Definition ret {A} (a : A) : M A := fun w => (Returned a, w).

Definition throw {A} (reason : string) : M A := fun w => (Thrown reason, w).

Definition bind {A B} (m : M A) (k : A -> M B) : M B :=
  fun w =>
    match m w with
    | (Returned a, w') => k a w'
    | (Thrown e, w') => (Thrown e, w')
    end.

Notation "'let!' x ':=' c1 'in' c2" := (bind c1 (fun x => c2))
  (at level 10, x name, c1 at level 100, c2 at level 200).
Notation "'do!' c1 'in' c2" := (bind c1 (fun _ => c2))
  (at level 10, c1 at level 100, c2 at level 200).

(** [try { m } catch (error) { throw new Error(prefix + error.message) }]. *)
Definition rethrow {A} (prefix : string) (m : M A) : M A :=
  fun w =>
    match m w with
    | (Returned a, w') => (Returned a, w')
    | (Thrown e, w') => (Thrown (prefix ++ e), w')
    end.

(** What a tool hands back: the response that [postProcess] formats, or the
    [humanMessage] of the object built in its [catch]. *)
Inductive ToolResult (A : Type) :=
| ToolOk (response : A)
| ToolError (humanMessage : string).
Arguments ToolOk {A} response.
Arguments ToolError {A} humanMessage.

Definition tool {A} (desc : string) (body : M A) (w : World) : ToolResult A * World :=
  match body w with
  | (Returned a, w') => (ToolOk a, w')
  | (Thrown e, w') => (ToolError (desc ++ ": " ++ e), w')
  end.

Definition fromOption {A} (reason : string) (o : option A) : M A :=
  match o with Some a => ret a | None => throw reason end.

(** The text of [undefined] or of a string inside a template literal. *)
Definition show (s : option string) : string := default "undefined" s.

Section Effects.

Context {net : Network}.

Definition dateNow : M Z :=
  fun w => (Returned (clock (ticks w)),
            mkWorld (topics w) (ledger w) (S (ticks w)) (env_P2P_GASLESS_TOPIC_ID w)).

Definition topicLog (w : World) (topicId : string) : list TopicMessage :=
  default [] (topics w !! topicId).

Definition getTopicMessages (topicId : string) : M (list TopicMessage) :=
  fun w => (Returned (topicLog w topicId), w).

(** [new TopicMessageSubmitTransaction().setTopicId(..).setMessage(
    JSON.stringify(data)).execute(client)]: the message is appended under the
    next sequence number, which is returned. *)
Definition submitTopicMessage (topicId : string) (data : Data) : M Z :=
  fun w =>
    let log := topicLog w topicId in
    let seq := Z.of_nat (List.length log) + 1 in
    (Returned seq,
     mkWorld (<[topicId := (log ++ [mkTopicMessage seq (consensusStamp seq) (Some data)])%list]> (topics w))
             (ledger w) (ticks w) (env_P2P_GASLESS_TOPIC_ID w)).

(** [tx.execute(client)] followed by [getReceipt]. *)
Definition executeTransaction (bytes : string) : M string :=
  fun w =>
    match executeBytes (ledger w) bytes with
    | Some transactionId =>
        (Returned transactionId,
         mkWorld (topics w) (ledger w ++ [bytes])%list (ticks w) (env_P2P_GASLESS_TOPIC_ID w))
    | None => (Thrown "transaction failed", w)
    end.

(** [Transaction.fromBytes(Buffer.from(bytes, 'base64')).sign(key)], read
    back with [toBytes] in base64. *)
Definition signTransaction (bytes : option string) (key : option string) : M string :=
  match bytes with
  | None => throw "The first argument must be of type string"
  | Some b => fromOption "failed to sign transaction" (signBytes b key)
  end.

End Effects.

(** *** Parameters of the tools ([p2p.zod.ts]) *)

Module CreateParams.
Record t := mk {
  paymentType : P2PPaymentType;
  recipientAccountId : string;
  tokenId : option string;
  nftSerialNumber : option Z;
  amount : Q;
  sponsorAccountId : option string;
  maxFee : option Q;
  expirationTime : option Z;
  memo : option string;
  nonce : option Z
}.
End CreateParams.

Module SignParams.
Record t := mk {
  paymentRequestId : string;
  topicId : string;
  sequenceNumber : Z
}.
End SignParams.

Module RelayParams.
Record t := mk {
  topicId : string;
  sequenceNumber : Z;
  sponsorFee : option Q
}.
End RelayParams.

Record CreateResponse := mkCreateResponse {
  created_topicId : string;
  created_sequenceNumber : Z;
  created_paymentRequestId : string;
  created_transactionBytes : string
}.

Record SignResponse := mkSignResponse {
  signed_paymentRequestId : string;
  signed_topicId : string;
  signed_sequenceNumber : Z
}.

Record RelayResponse := mkRelayResponse {
  relayed_transactionId : string;
  relayed_paymentRequestId : option string;
  relayed_sponsor : option string;
  relayed_gasPaid : Q;
  relayed_sponsorFee : Q
}.

Section WritePath.

Context {net : Network}.

(** *** [sign-gasless-payment.ts] *)

Definition getPaymentRequestFromTopic
    (topicId : string) (sequenceNumber : Z) (context : Context) : M Data :=
  if negb (mirrornodeService context) then
    throw "Mirrornode service is required to query payment requests"
  else
    rethrow "Failed to retrieve payment request: "
      (let! messages := getTopicMessages topicId in
       match List.find (fun msg => sequence_number msg =? sequenceNumber) messages with
       | None =>
           throw ("Payment request not found: No message with sequence number "
                    ++ pretty sequenceNumber)
       | Some targetMessage =>
           match message targetMessage with
           | None => throw "Unexpected token in JSON"
           | Some paymentRequest =>
               if negb (hasType paymentRequest "gasless_payment_request") then
                 throw ("Message is not a payment request (type: "
                          ++ show (type_ paymentRequest) ++ ")")
               else ret paymentRequest
           end
       end).

Definition validatePaymentRequest
    (paymentRequest : Data) (client : Client) (paymentRequestId' : string) : M unit :=
  if negb (bool_decide (paymentRequestId paymentRequest = Some paymentRequestId')) then
    throw "Payment request ID mismatch"
  else
    let operatorId := operatorAccountId client in
    if negb (bool_decide (sender paymentRequest = operatorId)) then
      throw "You are not the sender of this payment request"
    else if negb (bool_decide (status paymentRequest = Some "pending")) then
      throw ("Payment request is not pending (status: "
               ++ show (status paymentRequest) ++ ")")
    else
      let! expired :=
        (if truthyNum (expirationTime paymentRequest) then
           let! now := dateNow in
           ret match expirationTime paymentRequest with
               | Some e => e <? now
               | None => false
               end
         else ret false) in
      if (expired : bool) then throw "Payment request has expired"
      else if negb (bool_decide (is_Some (operatorPrivateKey client))) then
        throw "Private key is required to sign the transaction"
      else ret tt.

(** Lines 294-310 of the sign tool. *)
Definition signedPaymentMessage
    (paymentRequest : Data) (paymentRequestId' : string) (now : Z)
    (signedBytes : string) (sequenceNumber : Z) : Data :=
  {| version := Some "1.0";
     type_ := Some "gasless_payment_signed";
     paymentRequestId := Some paymentRequestId';
     timestamp := Some now;
     sender := sender paymentRequest;
     recipientAccountId := recipientAccountId paymentRequest;
     paymentType := paymentType paymentRequest;
     amount := amount paymentRequest;
     tokenId := tokenId paymentRequest;
     nftSerialNumber := nftSerialNumber paymentRequest;
     maxFee := maxFee paymentRequest;
     signedTransactionBytes := Some signedBytes;
     originalSequenceNumber := Some sequenceNumber;
     status := Some "signed";
     memo := memo paymentRequest;
     sponsorAccountId := None;
     expirationTime := None;
     nonce := None;
     transactionBytes := None;
     transactionId := None;
     sponsor := None;
     gasPaid := None;
     sponsorFee := None;
     relayed := None |}.

Definition signGaslessPayment
    (client : Client) (context : Context) (params : SignParams.t)
    : World -> ToolResult SignResponse * World :=
  let paymentRequestId' := SignParams.paymentRequestId params in
  let topicId := SignParams.topicId params in
  let sequenceNumber := SignParams.sequenceNumber params in
  tool "Failed to sign gasless payment"
    (let! paymentRequest := getPaymentRequestFromTopic topicId sequenceNumber context in
     do! validatePaymentRequest paymentRequest client paymentRequestId' in
     let! signedBytes :=
       signTransaction (transactionBytes paymentRequest) (operatorPrivateKey client) in
     let! now := dateNow in
     let! seq :=
       submitTopicMessage topicId
         (signedPaymentMessage paymentRequest paymentRequestId' now signedBytes sequenceNumber) in
     ret (mkSignResponse paymentRequestId' topicId seq)).

(** *** [relay-gasless-payment.ts] *)

Definition getSignedPaymentFromTopic
    (topicId : string) (sequenceNumber : Z) (context : Context) : M Data :=
  if negb (mirrornodeService context) then
    throw "Mirrornode service is required"
  else
    rethrow "Failed to retrieve signed payment: "
      (let! messages := getTopicMessages topicId in
       match List.find (fun msg => sequence_number msg =? sequenceNumber) messages with
       | None => throw ("Signed payment not found at sequence " ++ pretty sequenceNumber)
       | Some targetMessage =>
           match message targetMessage with
           | None => throw "Unexpected token in JSON"
           | Some signedPayment =>
               if negb (hasType signedPayment "gasless_payment_signed") then
                 throw ("Message is not a signed payment (type: "
                          ++ show (type_ signedPayment) ++ ")")
               else ret signedPayment
           end
       end).

Definition validateSignedPayment (signedPayment : Data) : M unit :=
  if negb (bool_decide (status signedPayment = Some "signed")) then
    throw ("Payment is not signed (status: " ++ show (status signedPayment) ++ ")")
  else if negb (truthyStr (signedTransactionBytes signedPayment)) then
    throw "Signed transaction bytes not found"
  else if truthyBool (relayed signedPayment) then
    throw "Payment has already been relayed"
  else ret tt.

Definition validateSponsorAuthorization (signedPayment : Data) (client : Client) : M unit :=
  let sponsorId := operatorAccountId client in
  if truthyStr (sponsorAccountId signedPayment) then
    if negb (bool_decide (sponsorAccountId signedPayment = sponsorId)) then
      throw ("This payment requires sponsor " ++ show (sponsorAccountId signedPayment)
               ++ ", but you are " ++ show sponsorId)
    else ret tt
  else ret tt.

(** The message of [markPaymentAsCompleted]. *)
Definition completionMessage
    (paymentRequestId' : option string) (client : Client) (now : Z)
    (transactionId' : string) (gasPaid' sponsorFee' : Q) : Data :=
  {| version := Some "1.0";
     type_ := Some "gasless_payment_completed";
     paymentRequestId := paymentRequestId';
     timestamp := Some now;
     transactionId := Some transactionId';
     sponsor := operatorAccountId client;
     gasPaid := Some gasPaid';
     sponsorFee := Some sponsorFee';
     status := Some "completed";
     sender := None;
     paymentType := None;
     recipientAccountId := None;
     tokenId := None;
     nftSerialNumber := None;
     amount := None;
     sponsorAccountId := None;
     maxFee := None;
     expirationTime := None;
     memo := None;
     nonce := None;
     transactionBytes := None;
     signedTransactionBytes := None;
     originalSequenceNumber := None;
     relayed := None |}.

Definition markPaymentAsCompleted
    (topicId : string) (paymentRequestId' : option string) (client : Client)
    (transactionId' : string) (gasPaid' sponsorFee' : Q) : M unit :=
  let! now := dateNow in
  do! submitTopicMessage topicId
        (completionMessage paymentRequestId' client now transactionId' gasPaid' sponsorFee') in
  ret tt.

Definition relayGaslessPayment
    (client : Client) (context : Context) (params : RelayParams.t)
    : World -> ToolResult RelayResponse * World :=
  let topicId := RelayParams.topicId params in
  let sequenceNumber := RelayParams.sequenceNumber params in
  let sponsorFee' := default 0%Q (RelayParams.sponsorFee params) in
  tool "Failed to relay gasless payment"
    (let! signedPayment := getSignedPaymentFromTopic topicId sequenceNumber context in
     do! validateSignedPayment signedPayment in
     do! validateSponsorAuthorization signedPayment client in
     let! fullySignedTx :=
       signTransaction (signedTransactionBytes signedPayment) (operatorPrivateKey client) in
     let! transactionId' := executeTransaction fullySignedTx in
     let gasPaid' := 0.01%Q in
     do! markPaymentAsCompleted topicId (paymentRequestId signedPayment) client
           transactionId' gasPaid' sponsorFee' in
     ret (mkRelayResponse transactionId' (paymentRequestId signedPayment)
            (operatorAccountId client) gasPaid' sponsorFee')).

(** *** [create-gasless-payment.ts] *)

Definition validatePaymentParams (params : CreateParams.t) : M unit :=
  let amount' := CreateParams.amount params in
  let badAmount := Qeq_bool amount' 0 || Qle_bool amount' 0 in
  match CreateParams.paymentType params with
  | HBAR_TRANSFER =>
      if badAmount then throw "Amount must be greater than 0 for HBAR transfers"
      else ret tt
  | TOKEN_TRANSFER =>
      if negb (truthyStr (CreateParams.tokenId params)) then
        throw "tokenId is required for token transfers"
      else if badAmount then throw "Amount must be greater than 0 for token transfers"
      else ret tt
  | NFT_TRANSFER =>
      if negb (truthyStr (CreateParams.tokenId params)) then
        throw "tokenId is required for NFT transfers"
      else if negb (bool_decide (is_Some (CreateParams.nftSerialNumber params))) then
        throw "nftSerialNumber is required for NFT transfers"
      else ret tt
  end.

(** The transfers and the memo of the unsigned transaction; the SDK's own
    parsing of the account and token ids is left to [freezeToBytes]. *)
Definition createUnsignedTransaction
    (params : CreateParams.t) (client : Client) : TransferTransaction :=
  let sender' := operatorAccountId client in
  let recipient := Some (CreateParams.recipientAccountId params) in
  let amount' := CreateParams.amount params in
  let transfers' :=
    match CreateParams.paymentType params with
    | HBAR_TRANSFER =>
        [HbarTransfer sender' (- amount')%Q; HbarTransfer recipient amount']
    | TOKEN_TRANSFER =>
        [TokenTransfer (CreateParams.tokenId params) sender' (- amount')%Q;
         TokenTransfer (CreateParams.tokenId params) recipient amount']
    | NFT_TRANSFER =>
        [NftTransfer (CreateParams.tokenId params) (CreateParams.nftSerialNumber params)
           sender' recipient]
    end in
  mkTransferTransaction transfers'
    (if truthyStr (CreateParams.memo params) then CreateParams.memo params else None)
    None.

Definition setMaxTransactionFee (fee : Q) (tx : TransferTransaction) : TransferTransaction :=
  mkTransferTransaction (transfers tx) (transactionMemo tx) (Some fee).

Definition nonEmpty (s : option string) : option string :=
  if truthyStr s then s else None.

Definition getOrCreateP2PTopic (context : Context) : M string :=
  match nonEmpty (p2pTopicId context) with
  | Some contextTopicId => ret contextTopicId
  | None =>
      fun w =>
        match nonEmpty (env_P2P_GASLESS_TOPIC_ID w) with
        | Some defaultTopicId => ret defaultTopicId w
        | None =>
            throw ("No P2P topic configured. Set P2P_GASLESS_TOPIC_ID environment "
                     ++ "variable or provide p2pTopicId in context.") w
        end
  end.

(** Lines 528-546 of the create tool. *)
Definition paymentRequestMessage
    (params : CreateParams.t) (client : Client) (paymentRequestId' : string)
    (now nonce' expirationTime' : Z) (maxFee' : Q) (transactionBytes' : string) : Data :=
  {| version := Some "1.0";
     type_ := Some "gasless_payment_request";
     paymentRequestId := Some paymentRequestId';
     timestamp := Some now;
     sender := operatorAccountId client;
     paymentType := Some (paymentTypeValue (CreateParams.paymentType params));
     recipientAccountId := Some (CreateParams.recipientAccountId params);
     tokenId := CreateParams.tokenId params;
     nftSerialNumber := CreateParams.nftSerialNumber params;
     amount := Some (CreateParams.amount params);
     sponsorAccountId := CreateParams.sponsorAccountId params;
     maxFee := Some maxFee';
     expirationTime := Some expirationTime';
     memo := CreateParams.memo params;
     nonce := Some nonce';
     transactionBytes := Some transactionBytes';
     status := Some "pending";
     signedTransactionBytes := None;
     originalSequenceNumber := None;
     transactionId := None;
     sponsor := None;
     gasPaid := None;
     sponsorFee := None;
     relayed := None |}.

(** [value || Date.now() + extra]: the clock is read only when [value] is
    falsy. *)
Definition orNow (value : option Z) (extra : Z) : M Z :=
  match value with
  | Some v => if v =? 0 then let! now := dateNow in ret (now + extra) else ret v
  | None => let! now := dateNow in ret (now + extra)
  end.

Definition createGaslessPayment
    (client : Client) (context : Context) (params : CreateParams.t)
    : World -> ToolResult CreateResponse * World :=
  tool "Failed to create gasless payment request"
    (let! nonce' := orNow (CreateParams.nonce params) 0 in
     let! expirationTime' := orNow (CreateParams.expirationTime params) (60 * 60 * 1000) in
     let maxFee' :=
       match CreateParams.maxFee params with
       | Some fee => if Qeq_bool fee 0 then 0.05%Q else fee
       | None => 0.05%Q
       end in
     do! validatePaymentParams params in
     let unsignedTx := createUnsignedTransaction params client in
     let! transactionBytes' :=
       fromOption "failed to build the transaction"
         (freezeToBytes (setMaxTransactionFee maxFee' unsignedTx)) in
     let! sender' :=
       fromOption "Cannot read properties of undefined (reading 'toString')"
         (operatorAccountId client) in
     let paymentRequestId' :=
       Id.generatePaymentRequestId sender' (CreateParams.recipientAccountId params) nonce' in
     let! now := dateNow in
     let paymentRequest :=
       paymentRequestMessage params client paymentRequestId' now nonce' expirationTime'
         maxFee' transactionBytes' in
     let! topicId := getOrCreateP2PTopic context in
     let! seq := submitTopicMessage topicId paymentRequest in
     ret (mkCreateResponse topicId seq paymentRequestId' transactionBytes')).

End WritePath.

(** *** Vocabulary of the properties *)

(** [m] leaves every topic as it found it. *)
Definition keepsTopics {A} (m : M A) : Prop :=
  forall w, topics (snd (m w)) = topics w.

(** If [m] throws, it has not written to any topic. *)
Definition throwsBeforeWriting {A} (m : M A) : Prop :=
  forall w reason w', m w = (Thrown reason, w') -> topics w' = topics w.

(** The world after one reading of the clock. *)
Definition afterReading (w : World) : World :=
  mkWorld (topics w) (ledger w) (S (ticks w)) (env_P2P_GASLESS_TOPIC_ID w).

(** [params.maxFee || 0.05]. *)
Definition maxFeeOrDefault (fee : option Q) : Q :=
  match fee with
  | Some fee => if Qeq_bool fee 0 then 0.05%Q else fee
  | None => 0.05%Q
  end.

(** A log as the network writes it: the message at position [i] has the
    sequence number [i + 1]. *)
Definition sequenced (log : list TopicMessage) : Prop :=
  forall (i : nat) msg, log !! i = Some msg -> sequence_number msg = Z.of_nat i + 1.

(** The message of the log with the sequence number [seq], as
    [messages.find] gives it. *)
Definition messageAt (log : list TopicMessage) (seq : Z) : option TopicMessage :=
  List.find (fun msg => sequence_number msg =? seq) log.

End Tools.

(** * A concrete network and the logs used as examples *)

Module Scenario.

Import Tools.

(** A ledger that accepts every transaction, a signer that appends the key,
    and a clock that advances by one millisecond per reading. *)
Definition network : Network :=
  {| clock := fun k => 1700000000000 + Z.of_nat k;
     freezeToBytes := fun _ => Some "dHJhbnNmZXI=";
     signBytes := fun bytes key => Some (bytes ++ "+" ++ show key);
     executeBytes := fun executed _ => Some ("transaction-" ++ pretty (Z.of_nat (List.length executed)));
     consensusStamp := fun n => pretty n |}.

Definition topic : string := "0.0.500".

Definition world0 : World := mkWorld ∅ [] 0 (Some topic).

Definition context : Context := mkContext true None.

(** The payer U, the sponsor S and a sponsor S' that nobody asked for. *)
Definition payer : Client := mkClient (Some "0.0.1001") (Some "key-U").
Definition sponsorS : Client := mkClient (Some "0.0.3003") (Some "key-S").
Definition sponsorS' : Client := mkClient (Some "0.0.4004") (Some "key-S'").

(** Ten HBAR from U to V = 0.0.2002 with nonce 7, expiring one hour after
    the request; [pinned] is the optional [sponsorAccountId]. *)
Definition intent (pinned : option string) : CreateParams.t :=
  CreateParams.mk HBAR_TRANSFER "0.0.2002" None None 10 pinned (Some 0.05%Q) None None (Some 7).

Definition idA : string := Id.generatePaymentRequestId "0.0.1001" "0.0.2002" 7.

Definition signA : SignParams.t := SignParams.mk idA topic 1.

Definition relayA : RelayParams.t := RelayParams.mk topic 2 (Some 0.01%Q).

(** A SIGNED message that names the sponsor 0.0.3003, and a log that holds
    it at the sequence number 1. *)
Definition pinnedSigned : Data :=
  {| version := Some "1.0";
     type_ := Some "gasless_payment_signed";
     paymentRequestId := Some idA;
     timestamp := Some 1700000000003;
     sender := Some "0.0.1001";
     recipientAccountId := Some "0.0.2002";
     paymentType := Some "hbar_transfer";
     amount := Some 10%Q;
     tokenId := None;
     nftSerialNumber := None;
     maxFee := Some 0.05%Q;
     signedTransactionBytes := Some "dHJhbnNmZXI=+key-U";
     originalSequenceNumber := Some 1;
     status := Some "signed";
     memo := None;
     sponsorAccountId := Some "0.0.3003";
     expirationTime := None;
     nonce := None;
     transactionBytes := None;
     transactionId := None;
     sponsor := None;
     gasPaid := None;
     sponsorFee := None;
     relayed := None |}.

Definition pinnedWorld : World :=
  mkWorld {[ topic := [mkTopicMessage 1 "1" (Some pinnedSigned)] ]} [] 0 (Some topic).

Section Runs.

#[local] Existing Instance network.

(** create, sign, relay: the log REQUEST(A), SIGNED(A), COMPLETED(A). *)
Definition created (pinned : option string) : World :=
  snd (createGaslessPayment payer context (intent pinned) world0).

Definition signed (pinned : option string) : World :=
  snd (signGaslessPayment payer context signA (created pinned)).

Definition relayed (pinned : option string) (sponsor : Client) : World :=
  snd (relayGaslessPayment sponsor context relayA (signed pinned)).

Definition logA : list TopicMessage := topicLog (relayed None sponsorS) topic.

End Runs.

(** The same network an hour and more later. *)
Definition lateNetwork : Network :=
  {| clock := fun k => 1800000000000 + Z.of_nat k;
     freezeToBytes := freezeToBytes (Network := network);
     signBytes := signBytes (Network := network);
     executeBytes := executeBytes (Network := network);
     consensusStamp := consensusStamp (Network := network) |}.

(** Hand-written entries, for logs that the tools would not produce in this
    order. *)
Definition entry (seq : Z) (data : Data) : TopicMessage :=
  mkTopicMessage seq (pretty seq) (Some data).

Definition requestOf (id : string) (created expires : Z) : Data :=
  paymentRequestMessage (intent None) payer id created 7 expires 0.05 "dHJhbnNmZXI=".

Definition signedOf (id : string) (request : Data) (at_ : Z) (original : Z) : Data :=
  signedPaymentMessage request id at_ "dHJhbnNmZXI=+key-U" original.

Definition completedOf (id : string) (sponsor : Client) (at_ : Z) (fee : Q) : Data :=
  completionMessage (Some id) sponsor at_ "transaction-0" 0.01 fee.

Definition kinds (log : list TopicMessage) : list (option string) :=
  map (fun msg => message msg ≫= type_) log.

(** What a caller reads off a record. *)
Definition summary (p : Query.Payment) : option string * option string * option string * option Q :=
  (paymentRequestId (Query.fields p), status (Query.fields p),
   sponsor (Query.fields p), sponsorFee (Query.fields p)).

Definition onlyStatus (s : P2PPaymentStatus) : option Query.Filters :=
  Some (Query.mkFilters None None None (Some s) None).

Definition farFuture : Z := 1800000000000.

(** Two completions of A by different sponsors, then the request. *)
Definition twoCompletions : list TopicMessage :=
  [entry 1 (completedOf idA sponsorS 1700000000010 0.01);
   entry 2 (completedOf idA sponsorS' 1700000000020 0.02);
   entry 3 (requestOf idA 1700000000030 farFuture)].

(** The request A posted twice. *)
Definition twoRequests : list TopicMessage :=
  [entry 1 (requestOf idA 1700000000010 farFuture);
   entry 2 (requestOf idA 1700000000020 farFuture)].

(** A completion of A, the request, and then a signature. *)
Definition completedThenSigned : list TopicMessage :=
  [entry 1 (completedOf idA sponsorS 1700000000010 0.01);
   entry 2 (requestOf idA 1700000000020 farFuture);
   entry 3 (signedOf idA (requestOf idA 1700000000020 farFuture) 1700000000030 2)].



(** The request A, a completion of A, and then the signature of A. *)
Definition completedBeforeSigned : list TopicMessage :=
  [entry 1 (requestOf idA 1700000000010 farFuture);
   entry 2 (completedOf idA sponsorS 1700000000020 0.01);
   entry 3 (signedOf idA (requestOf idA 1700000000010 farFuture) 1700000000030 1)].

End Scenario.

(** * Properties of the read path *)

Module QueryFacts.

Import Query.

Lemma hasType_inj data t1 t2 :
  hasType data t1 = true -> hasType data t2 = true -> t1 = t2.
Proof.
  unfold hasType. intros H1 H2.
  apply bool_decide_eq_true in H1. apply bool_decide_eq_true in H2. congruence.
Qed.

Lemma request_not_terminal data : isRequest data = true -> isTerminal data = false.
Proof.
  intros Hr. unfold isTerminal.
  destruct (hasType data "gasless_payment_completed") eqn:Hc.
  { discriminate (hasType_inj _ _ _ Hr Hc). }
  destruct (hasType data "gasless_payment_failed") eqn:Hf; [|done].
  discriminate (hasType_inj _ _ _ Hr Hf).
Qed.

Lemma request_not_signed data : isRequest data = true -> isSigned data = false.
Proof.
  intros Hr. unfold isSigned.
  destruct (hasType data "gasless_payment_signed") eqn:Hs; [|done].
  discriminate (hasType_inj _ _ _ Hr Hs).
Qed.

Lemma signed_not_terminal data : isSigned data = true -> isTerminal data = false.
Proof.
  intros Hs. unfold isTerminal.
  destruct (hasType data "gasless_payment_completed") eqn:Hc.
  { discriminate (hasType_inj _ _ _ Hs Hc). }
  destruct (hasType data "gasless_payment_failed") eqn:Hf; [|done].
  discriminate (hasType_inj _ _ _ Hs Hf).
Qed.

Lemma noCriteria_keeps filters p :
  noCriteria filters = true -> filteredOut filters p = false.
Proof.
  destruct filters as [f|]; [|done]. unfold noCriteria, filteredOut.
  destruct (truthyStr (senderAccountIdF f)); [done|].
  destruct (truthyStr (recipientAccountIdF f)); [done|].
  destruct (paymentTypeF f); [done|].
  by destruct (statusF f).
Qed.

Lemma noLimit_query clock messages filters reads0 :
  noLimit filters = true ->
  queryPaymentsFromTopic clock messages filters reads0
    = sortPayments (payments (runLoop clock filters (initial reads0) messages)).
Proof.
  unfold queryPaymentsFromTopic, noLimit. destruct filters as [f|]; [|done].
  by destruct (truthyNum (limitF f)).
Qed.

Section Steps.

Variable clock : nat -> Z.
Variable filters : option Filters.

(** The four ways in which one message moves the loop state. *)
Lemma step_unparsed st msg :
  message msg = None -> processMessage clock filters st msg = st.
Proof. intros H. unfold processMessage. by rewrite H. Qed.

Lemma step_terminal st msg data :
  message msg = Some data -> isTerminal data = true ->
  processMessage clock filters st msg =
    mkState (payments st)
            (<[paymentRequestId data := statusUpdateOf data]> (statusUpdates st))
            (reads st).
Proof.
  intros H Ht. unfold processMessage. rewrite H.
  unfold isTerminal in Ht. by rewrite Ht.
Qed.

Lemma step_signed st msg data :
  message msg = Some data -> isSigned data = true ->
  processMessage clock filters st msg =
    mkState (markSigned data (sequence_number msg) (payments st))
            (statusUpdates st) (reads st).
Proof.
  intros H Hs. unfold processMessage. rewrite H.
  pose proof (signed_not_terminal _ Hs) as Ht. unfold isTerminal in Ht. rewrite Ht.
  unfold isSigned in Hs. by rewrite Hs.
Qed.

Lemma step_request st msg data :
  message msg = Some data -> isRequest data = true ->
  processMessage clock filters st msg =
    let (payment, k) := checkExpiration clock (reads st) (materialize st msg data) in
    if filteredOut filters payment
    then mkState (payments st) (statusUpdates st) k
    else mkState (payments st ++ [payment]) (statusUpdates st) k.
Proof.
  intros H Hr. unfold processMessage. rewrite H.
  pose proof (request_not_terminal _ Hr) as Ht. unfold isTerminal in Ht. rewrite Ht.
  pose proof (request_not_signed _ Hr) as Hs. unfold isSigned in Hs. rewrite Hs.
  unfold isRequest in Hr. by rewrite Hr.
Qed.

Lemma step_other st msg data :
  message msg = Some data ->
  isTerminal data = false -> isSigned data = false -> isRequest data = false ->
  processMessage clock filters st msg = st.
Proof.
  intros H Ht Hs Hr. unfold processMessage. rewrite H.
  unfold isTerminal in Ht. rewrite Ht.
  unfold isSigned in Hs. rewrite Hs.
  unfold isRequest in Hr. by rewrite Hr.
Qed.

Lemma runLoop_app st l1 l2 :
  runLoop clock filters st (l1 ++ l2) =
    runLoop clock filters (runLoop clock filters st l1) l2.
Proof. unfold runLoop. apply fold_left_app. Qed.

Lemma runLoop_cons st msg l :
  runLoop clock filters st (msg :: l) =
    runLoop clock filters (processMessage clock filters st msg) l.
Proof. reflexivity. Qed.

End Steps.

End QueryFacts.

(** * The read path: what the query answers *)

Module ReadPath.

Import Query QueryFacts.

Local Open Scope list_scope.

(** A COMPLETED or FAILED message only writes [statusUpdates]; the records
    already pushed on [payments] are out of its reach. *)
Lemma terminal_message_keeps_payments clock filters st msg data :
  message msg = Some data -> isTerminal data = true ->
  payments (processMessage clock filters st msg) = payments st.
Proof. intros H Ht. by rewrite (step_terminal clock filters st msg data H Ht). Qed.

(** C1.  The log REQUEST(A), SIGNED(A), COMPLETED(A, sponsor S, fee 0.01),
    written by the create, sign and relay tools and read in that order: the
    query filtered on status COMPLETED answers nothing, and the unfiltered
    query answers one record for A that is still "signed" and carries neither
    the sponsor nor the sponsor fee of the completion.  Read newest first,
    the same log does give the completed record with fee 0.01. *)
Theorem C1_completion_after_request_is_not_attached :
  let now := Tools.clock (Network := Scenario.network) in
  Scenario.kinds Scenario.logA
    = [Some "gasless_payment_request"; Some "gasless_payment_signed";
       Some "gasless_payment_completed"]
  /\ queryPaymentsFromTopic now Scenario.logA (Scenario.onlyStatus COMPLETED) 0 = []
  /\ map Scenario.summary (queryPaymentsFromTopic now Scenario.logA None 0)
       = [(Some Scenario.idA, Some "signed", None, None)]
  /\ map Scenario.summary
       (queryPaymentsFromTopic now (rev Scenario.logA) (Scenario.onlyStatus COMPLETED) 0)
       = [(Some Scenario.idA, Some "completed", Some "0.0.3003", Some 0.01%Q)].
Proof. vm_compute. repeat split; reflexivity. Qed.

(** ** Which completion a record carries *)

Section StatusTable.

Variable clock : nat -> Z.
Variable filters : option Filters.

Lemma step_lookup_other st msg id :
  refersTo isTerminal id msg = false ->
  statusUpdates (processMessage clock filters st msg) !! id = statusUpdates st !! id.
Proof.
  unfold refersTo. intros Hno.
  destruct (message msg) as [data|] eqn:Hm; [|by rewrite step_unparsed].
  destruct (isTerminal data) eqn:Ht.
  - rewrite (step_terminal _ _ _ _ _ Hm Ht). simpl in *.
    apply bool_decide_eq_false in Hno. by rewrite lookup_insert_ne.
  - destruct (isSigned data) eqn:Hs.
    { by rewrite (step_signed _ _ _ _ _ Hm Hs). }
    destruct (isRequest data) eqn:Hr.
    + rewrite (step_request _ _ _ _ _ Hm Hr).
      destruct (checkExpiration clock (reads st) (materialize st msg data)) as [p k].
      by destruct (filteredOut filters p).
    + by rewrite (step_other _ _ _ _ _ Hm Ht Hs Hr).
Qed.

Lemma runLoop_lookup_other msgs : forall st id,
  Forall (fun msg => refersTo isTerminal id msg = false) msgs ->
  statusUpdates (runLoop clock filters st msgs) !! id = statusUpdates st !! id.
Proof.
  induction msgs as [|msg msgs IH]; intros st id Hall; [done|].
  inversion Hall as [|? ? Hmsg Hrest]; subst.
  rewrite runLoop_cons, IH by done. by apply step_lookup_other.
Qed.

Lemma checkExpiration_not_pending k p :
  status (fields p) <> Some "pending" -> fst (checkExpiration clock k p) = p.
Proof.
  intros Hs. unfold checkExpiration.
  destruct (truthyNum (expirationTime (fields p))); [|done].
  rewrite (bool_decide_eq_false_2 _ Hs), andb_false_r. done.
Qed.

End StatusTable.

Lemma statusUpdateOf_terminal data :
  Some (su_status (statusUpdateOf data)) <> Some "pending".
Proof. unfold statusUpdateOf. simpl. by destruct (hasType data _). Qed.

(** C2, as the code has it: the status table keeps, for each id, the
    completion that was processed last.  When a REQUEST is materialized
    after the COMPLETED or FAILED message [last] for its id, and no other
    terminal message for that id lies between the two, the record pushed is
    the request overwritten with the status, transaction id, sponsor, gas,
    sponsor fee and timestamp of [last], whatever terminal messages for the
    id came before [last]. *)
Theorem C2_latest_completion_is_attached
    (clock : nat -> Z) (filters : option Filters) (reads0 : nat)
    (pre post : list TopicMessage) (last req : TopicMessage) (dlast dreq : Data) :
  noCriteria filters = true ->
  message last = Some dlast -> isTerminal dlast = true ->
  message req = Some dreq -> isRequest dreq = true ->
  paymentRequestId dreq = paymentRequestId dlast ->
  Forall (fun msg => refersTo isTerminal (paymentRequestId dlast) msg = false) post ->
  payments (runLoop clock filters (initial reads0) (pre ++ last :: post ++ [req]))
    = (payments (runLoop clock filters (initial reads0) (pre ++ last :: post))
        ++ [mkPayment (assignUpdate (statusUpdateOf dlast) dreq)
              (sequence_number req) (consensus_timestamp req) None None])%list.
Proof.
  intros Hall Hlast Ht Hreq Hr Hid Hpost.
  replace (pre ++ last :: post ++ [req]) with ((pre ++ last :: post) ++ [req])
    by (by rewrite <- app_assoc).
  rewrite runLoop_app.
  set (st := runLoop clock filters (initial reads0) (pre ++ last :: post)).
  assert (Hlook : statusUpdates st !! paymentRequestId dreq = Some (statusUpdateOf dlast)).
  { subst st. rewrite Hid, runLoop_app, runLoop_cons.
    rewrite runLoop_lookup_other by done.
    rewrite (step_terminal _ _ _ _ _ Hlast Ht). simpl.
    apply lookup_insert_eq. }
  simpl. rewrite (step_request _ _ _ _ _ Hreq Hr).
  unfold materialize. rewrite Hlook.
  set (p := mkPayment _ _ _ _ _).
  pose proof (checkExpiration_not_pending clock (reads st) p
                (statusUpdateOf_terminal dlast)) as Hp.
  destruct (checkExpiration clock (reads st) p) as [p' k]. simpl in Hp. subst p'.
  by rewrite (noCriteria_keeps _ _ Hall).
Qed.

(** The theorem at the log of two completions followed by the request: the
    record carries the second completion. *)
Lemma C2_witness_two_completions_then_request :
  payments (runLoop (fun _ => 0) None (initial 0) Scenario.twoCompletions)
    = (payments (runLoop (fun _ => 0) None (initial 0) (take 2 Scenario.twoCompletions))
        ++ [mkPayment
              (assignUpdate
                 (statusUpdateOf
                    (Scenario.completedOf Scenario.idA Scenario.sponsorS' 1700000000020 0.02))
                 (Scenario.requestOf Scenario.idA 1700000000030 Scenario.farFuture))
              3 "3" None None])%list.
Proof.
  apply (C2_latest_completion_is_attached (fun _ => 0) None 0
           [Scenario.entry 1
              (Scenario.completedOf Scenario.idA Scenario.sponsorS 1700000000010 0.01)]
           []
           (Scenario.entry 2
              (Scenario.completedOf Scenario.idA Scenario.sponsorS' 1700000000020 0.02))
           (Scenario.entry 3
              (Scenario.requestOf Scenario.idA 1700000000030 Scenario.farFuture))).
  - reflexivity.
  - reflexivity.
  - reflexivity.
  - reflexivity.
  - reflexivity.
  - reflexivity.
  - constructor.
Defined.

(** C2, as stated, fails on the log COMPLETED(A, S, 0.01),
    COMPLETED(A, S', 0.02), REQUEST(A): the first terminal message names the
    sponsor 0.0.3003 and the fee 0.01, the record names 0.0.4004 and 0.02. *)
Lemma C2_first_completion_is_replaced :
  map (fun msg => (message msg ≫= sponsor, message msg ≫= sponsorFee))
      (take 1 Scenario.twoCompletions) = [(Some "0.0.3003", Some 0.01%Q)]
  /\ map Scenario.summary
       (queryPaymentsFromTopic (fun _ => 0) Scenario.twoCompletions None 0)
     = [(Some Scenario.idA, Some "completed", Some "0.0.4004", Some 0.02%Q)].
Proof. vm_compute. split; reflexivity. Qed.

(** ** One record per REQUEST message *)

Lemma markSigned_keys data seq ps :
  map recordKey (markSigned data seq ps) = map recordKey ps.
Proof.
  induction ps as [|p ps IH]; [done|]. simpl.
  destruct (bool_decide _); simpl; [done|]. by rewrite IH.
Qed.

Lemma checkExpiration_key clock k p :
  recordKey (fst (checkExpiration clock k p)) = recordKey p.
Proof.
  unfold checkExpiration.
  destruct (truthyNum _); [|done]. by destruct (_ && _).
Qed.

Lemma materialize_key st msg data :
  recordKey (materialize st msg data) = (paymentRequestId data, sequence_number msg).
Proof. unfold materialize. by destruct (statusUpdates st !! _). Qed.

Section Keys.

Variable clock : nat -> Z.
Variable filters : option Filters.
Hypothesis all_pass : noCriteria filters = true.

Lemma step_keys st msg :
  map recordKey (payments (processMessage clock filters st msg))
    = map recordKey (payments st) ++ requestKeys [msg].
Proof.
  unfold requestKeys, requestKey. simpl.
  destruct (message msg) as [data|] eqn:Hm;
    [|by rewrite step_unparsed, app_nil_r].
  destruct (isRequest data) eqn:Hr.
  - rewrite (step_request _ _ _ _ _ Hm Hr).
    pose proof (checkExpiration_key clock (reads st) (materialize st msg data)) as Hk.
    destruct (checkExpiration clock (reads st) (materialize st msg data)) as [p k].
    cbn [fst] in Hk. rewrite (noCriteria_keeps _ _ all_pass). cbn [payments].
    rewrite map_app. cbn [map]. by rewrite Hk, materialize_key.
  - rewrite app_nil_r. destruct (isTerminal data) eqn:Ht.
    { by rewrite (step_terminal _ _ _ _ _ Hm Ht). }
    destruct (isSigned data) eqn:Hs.
    + rewrite (step_signed _ _ _ _ _ Hm Hs). simpl. apply markSigned_keys.
    + by rewrite (step_other _ _ _ _ _ Hm Ht Hs Hr).
Qed.

Lemma runLoop_keys messages : forall st,
  map recordKey (payments (runLoop clock filters st messages))
    = map recordKey (payments st) ++ requestKeys messages.
Proof.
  induction messages as [|msg messages IH]; intros st.
  - by rewrite app_nil_r.
  - rewrite runLoop_cons, IH, step_keys, <- app_assoc.
    f_equal. unfold requestKeys. simpl. by destruct (requestKey msg).
Qed.

End Keys.

Lemma insertSorted_perm x l : insertSorted x l ≡ₚ x :: l.
Proof.
  induction l as [|y l IH]; [done|]. simpl.
  destruct (compareFn x y <=? 0); [done|].
  rewrite IH. apply Permutation_swap.
Qed.

Lemma sortPayments_perm l : sortPayments l ≡ₚ l.
Proof.
  induction l as [|x l IH]; [done|]. simpl.
  rewrite insertSorted_perm. by rewrite IH.
Qed.

(** C3, as the code has it: every REQUEST message gives its own record.
    Without filter criteria and without a limit, the records answered are,
    up to the order of the final sort, exactly the REQUEST messages of the
    log, each with the id and the sequence number of its message; k
    requests with one id give k records with that id. *)
Theorem C3_one_record_per_request_message
    (clock : nat -> Z) (filters : option Filters) (reads0 : nat)
    (messages : list TopicMessage) :
  noCriteria filters = true -> noLimit filters = true ->
  map recordKey (queryPaymentsFromTopic clock messages filters reads0)
    ≡ₚ requestKeys messages.
Proof.
  intros Hall Hlim. rewrite (noLimit_query _ _ _ _ Hlim).
  rewrite sortPayments_perm. by rewrite (runLoop_keys clock filters Hall).
Qed.

Lemma C3_witness_request_posted_twice :
  map recordKey
      (queryPaymentsFromTopic (fun _ => 0) Scenario.twoRequests (Some noFilters) 0)
    ≡ₚ [(Some Scenario.idA, 1); (Some Scenario.idA, 2)].
Proof.
  apply (C3_one_record_per_request_message (fun _ => 0) (Some noFilters) 0
           Scenario.twoRequests); reflexivity.
Defined.

(** C3, as stated, fails on the log REQUEST(A), REQUEST(A): the view holds
    two records for A, one per message, and the later one comes first. *)
Lemma C3_duplicate_request_gives_second_record :
  map recordKey (queryPaymentsFromTopic (fun _ => 0) Scenario.twoRequests None 0)
    = [(Some Scenario.idA, 2); (Some Scenario.idA, 1)].
Proof. vm_compute. reflexivity. Qed.

(** ** Terminal records and later messages *)


(** C4.  On the log COMPLETED(A), REQUEST(A), SIGNED(A) the record of A is
    "completed" once the request has been read, and the SIGNED message that
    follows sets it back to "signed", the sponsor and the fee of the
    completion still attached. *)
Theorem C4_signed_message_overwrites_terminal_status :
  map Scenario.summary
      (queryPaymentsFromTopic (fun _ => 0) (take 2 Scenario.completedThenSigned) None 0)
    = [(Some Scenario.idA, Some "completed", Some "0.0.3003", Some 0.01%Q)]
  /\ map Scenario.summary
       (queryPaymentsFromTopic (fun _ => 0) Scenario.completedThenSigned None 0)
     = [(Some Scenario.idA, Some "signed", Some "0.0.3003", Some 0.01%Q)].
Proof. vm_compute. split; reflexivity. Qed.

(** ** Expiry *)

Lemma markSigned_elem data seq ps p :
  p ∈ markSigned data seq ps -> p ∈ ps \/ status (fields p) = Some "signed".
Proof.
  induction ps as [|q ps IH]; simpl; [by left|].
  destruct (bool_decide _).
  - intros [->|Hin]%elem_of_cons; [by right|]. left. by apply elem_of_cons; right.
  - intros [->|Hin]%elem_of_cons.
    + left. apply elem_of_cons. by left.
    + destruct (IH Hin) as [?|?]; [|by right]. left. apply elem_of_cons. by right.
Qed.

Lemma checkExpiration_reads clock k p : (k <= snd (checkExpiration clock k p))%nat.
Proof.
  unfold checkExpiration.
  destruct (truthyNum _); simpl; [|lia]. destruct (_ && _); simpl; lia.
Qed.

(** A record that leaves the expiry check PENDING with a non-zero
    expiration time was not yet expired at the reading [k] of the clock. *)
Lemma checkExpiration_pending clock k p e :
  status (fields (fst (checkExpiration clock k p))) = Some "pending" ->
  expirationTime (fields (fst (checkExpiration clock k p))) = Some e ->
  e <> 0 -> clock k <= e.
Proof.
  unfold checkExpiration.
  destruct (truthyNum (expirationTime (fields p))) eqn:Htr.
  - destruct (expirationTime (fields p)) as [e'|] eqn:He; [|done].
    destruct (e' <? clock k) eqn:Hlt; simpl.
    + destruct (bool_decide (status (fields p) = Some "pending")) eqn:Hp; simpl.
      * done.
      * intros Hs. apply bool_decide_eq_false in Hp. done.
    + rewrite He. intros _ [= ->] _. apply Z.ltb_ge in Hlt. lia.
  - simpl. intros _ He Hne. rewrite He in Htr. simpl in Htr.
    apply negb_false_iff, Z.eqb_eq in Htr. done.
Qed.

Section Expiry.

Variable clock : nat -> Z.
Variable filters : option Filters.
Variable reads0 : nat.
Hypothesis clock_monotone : forall i j, (i <= j)%nat -> clock i <= clock j.

Lemma expiryInvariant_step st msg :
  expiryInvariant clock reads0 st ->
  expiryInvariant clock reads0 (processMessage clock filters st msg).
Proof.
  intros [Hreads Hall].
  destruct (message msg) as [data|] eqn:Hm; [|by rewrite step_unparsed].
  destruct (isTerminal data) eqn:Ht.
  { by rewrite (step_terminal _ _ _ _ _ Hm Ht). }
  destruct (isSigned data) eqn:Hs.
  { rewrite (step_signed _ _ _ _ _ Hm Hs). split; [done|]. simpl.
    apply Forall_forall. intros p [Hin|Hsig]%markSigned_elem.
    - by apply (proj1 (Forall_forall _ _) Hall).
    - intros e Hp. congruence. }
  destruct (isRequest data) eqn:Hr; [|by rewrite (step_other _ _ _ _ _ Hm Ht Hs Hr)].
  rewrite (step_request _ _ _ _ _ Hm Hr).
  pose proof (checkExpiration_reads clock (reads st) (materialize st msg data)) as Hk.
  pose proof (checkExpiration_pending clock (reads st) (materialize st msg data)) as Hp.
  destruct (checkExpiration clock (reads st) (materialize st msg data)) as [p k].
  simpl in Hk, Hp.
  destruct (filteredOut filters p); (split; [simpl; lia|]); simpl; [done|].
  apply Forall_app. split; [done|]. constructor; [|constructor].
  intros e Hst He Hne. specialize (Hp e Hst He Hne).
  pose proof (clock_monotone reads0 (reads st) Hreads). lia.
Qed.

Lemma expiryInvariant_run messages : forall st,
  expiryInvariant clock reads0 st ->
  expiryInvariant clock reads0 (runLoop clock filters st messages).
Proof.
  induction messages as [|msg messages IH]; intros st Hst; [done|].
  rewrite runLoop_cons. by apply IH, expiryInvariant_step.
Qed.

End Expiry.

Lemma slice0_elem ps n p : p ∈ slice0 ps n -> p ∈ ps.
Proof.
  assert (Htake : forall k, p ∈ take k ps -> p ∈ ps).
  { intros k Hin. rewrite <- (take_drop k ps). apply elem_of_app. by left. }
  unfold slice0. destruct (0 <=? n); apply Htake.
Qed.

(** X28.  Whatever the log, the filters and the limit, no record of an
    answer is PENDING with an expiration time that is set (not 0) and earlier
    than the time at which the query started, as long as the clock does not
    run backwards. *)
Theorem no_pending_record_is_past_expiry
    (clock : nat -> Z) (filters : option Filters) (reads0 : nat)
    (messages : list TopicMessage) (p : Payment) (e : Z) :
  (forall i j, (i <= j)%nat -> clock i <= clock j) ->
  p ∈ queryPaymentsFromTopic clock messages filters reads0 ->
  status (fields p) = Some "pending" ->
  expirationTime (fields p) = Some e ->
  e <> 0 ->
  clock reads0 <= e.
Proof.
  intros Hmono Hin Hst He Hne.
  assert (Hsorted : p ∈ sortPayments (payments (runLoop clock filters (initial reads0) messages))).
  { unfold queryPaymentsFromTopic in Hin. destruct filters as [f|]; [|done].
    destruct (truthyNum (limitF f)); [|done]. by eapply slice0_elem. }
  rewrite sortPayments_perm in Hsorted.
  destruct (expiryInvariant_run clock filters reads0 Hmono messages (initial reads0))
    as [_ Hall].
  { split; [done|]. constructor. }
  by apply (proj1 (Forall_forall _ _) Hall p Hsorted e).
Qed.

(** The theorem at the log that holds only the request written by the
    create tool, which expires one hour after the query. *)
Lemma X28_witness_fresh_request :
  Tools.clock (Network := Scenario.network) 0 <= 1700003600000.
Proof.
  apply (no_pending_record_is_past_expiry
           (Tools.clock (Network := Scenario.network)) None 0
           (Tools.topicLog (Scenario.created None) Scenario.topic)
           (mkPayment (Scenario.requestOf Scenario.idA 1700000000001 1700003600000)
              1 "1" None None)
           1700003600000).
  - intros i j Hij. simpl. lia.
  - vm_compute. constructor.
  - reflexivity.
  - reflexivity.
  - lia.
Defined.

(** ** What the expiry check does to a record *)




Section Kept.

Variable clock : nat -> Z.
Variable filters : option Filters.



End Kept.





End ReadPath.

(** * Request ids: determinism and collisions *)

Module IdFacts.

Import Id.

Local Open Scope list_scope.

Lemma append_cons (c : ascii) (s1 s2 : string) :
  (String c s1 ++ s2)%string = String c (s1 ++ s2)%string.
Proof. reflexivity. Qed.

Lemma append_length (s1 s2 : string) :
  String.length (s1 ++ s2)%string = (String.length s1 + String.length s2)%nat.
Proof.
  induction s1 as [|c s1 IH]; [done|].
  rewrite append_cons. simpl. by rewrite IH.
Qed.

Lemma append_assoc (s1 s2 s3 : string) :
  (s1 ++ (s2 ++ s3))%string = ((s1 ++ s2) ++ s3)%string.
Proof.
  induction s1 as [|c s1 IH]; [done|].
  rewrite !append_cons. by f_equal.
Qed.

Lemma bufferFrom_app (s1 s2 : string) :
  bufferFrom (s1 ++ s2)%string = bufferFrom s1 ++ bufferFrom s2.
Proof.
  unfold bufferFrom. rewrite <- map_app. f_equal.
  induction s1 as [|c s1 IH]; [done|].
  rewrite append_cons. simpl. by rewrite IH.
Qed.

Lemma bufferFrom_length (s : string) : List.length (bufferFrom s) = String.length s.
Proof.
  unfold bufferFrom. rewrite length_map.
  induction s as [|c s IH]; simpl; [done|]. by rewrite IH.
Qed.

(** The first [4 * k] characters of the encoding are those of the first
    [3 * k] bytes. *)
Lemma base64_prefix (k : nat) : forall l1 l2 : list N,
  take (3 * k) l1 = take (3 * k) l2 ->
  substring 0 (4 * k) (base64 l1) = substring 0 (4 * k) (base64 l2).
Proof.
  induction k as [|k IH]; intros l1 l2 Htake.
  { simpl. by destruct (base64 l1), (base64 l2). }
  replace (3 * S k)%nat with (S (S (S (3 * k)))) in Htake by lia.
  replace (4 * S k)%nat with (S (S (S (S (4 * k))))) by lia.
  destruct l1 as [|a1 [|b1 [|c1 r1]]]; destruct l2 as [|a2 [|b2 [|c2 r2]]];
    simpl in Htake; try discriminate; try done.
  - by injection Htake as ->.
  - by injection Htake as -> ->.
  - injection Htake as -> -> -> Hrest.
    cbn [base64 substring]. by rewrite (IH r1 r2 Hrest).
Qed.

(** The id is a function of the first 24 bytes of
    [sender-recipient-nonce]. *)
Lemma id_reads_24_bytes (prefix s1 s2 : string) :
  (24 <= String.length prefix)%nat ->
  substring 0 32 (base64 (bufferFrom (prefix ++ s1)%string))
    = substring 0 32 (base64 (bufferFrom (prefix ++ s2)%string)).
Proof.
  intros Hlen. apply (base64_prefix 8).
  rewrite !bufferFrom_app.
  rewrite !take_app_le by (rewrite bufferFrom_length; lia). done.
Qed.

(** X13.  When [sender-recipient-] fills the 24 bytes, as it does for two
    account ids of eleven characters such as 0.0.1234567, the nonce does not
    reach the id at all: every nonce gives the same id. *)
Lemma long_accounts_share_one_id (sender recipient : string) (n1 n2 : Z) :
  (22 <= String.length sender + String.length recipient)%nat ->
  generatePaymentRequestId sender recipient n1
    = generatePaymentRequestId sender recipient n2.
Proof.
  intros Hlen. unfold generatePaymentRequestId.
  assert (Hsplit : forall n : Z,
    (sender ++ "-" ++ recipient ++ "-" ++ pretty n)%string
      = ((sender ++ "-" ++ recipient ++ "-") ++ pretty n)%string).
  { intros n. by rewrite <- !append_assoc. }
  rewrite !Hsplit. apply id_reads_24_bytes.
  rewrite !append_length. simpl. lia.
Qed.

(** C6.  Two requests from 0.0.12345 to 0.0.67890 whose nonces are the
    clock readings of two consecutive milliseconds get one and the same id:
    the 32 characters kept of the base64 text cover 24 bytes, that is
    [0.0.12345-0.0.67890-1730], and the digits that tell the nonces apart
    come after them. *)
Theorem C6_distinct_nonces_collide :
  1730000000000 <> 1730000000001
  /\ generatePaymentRequestId "0.0.12345" "0.0.67890" 1730000000000
       = "MC4wLjEyMzQ1LTAuMC42Nzg5MC0xNzMw"
  /\ generatePaymentRequestId "0.0.12345" "0.0.67890" 1730000000001
       = "MC4wLjEyMzQ1LTAuMC42Nzg5MC0xNzMw".
Proof. split; [lia|]. split; vm_compute; reflexivity. Qed.

End IdFacts.

(** * The write path: what the guards let through *)

Module WritePathFacts.

Import Tools.

Local Open Scope list_scope.

(** ** Relaying: the pinned sponsor *)

(** The SIGNED message does not copy [sponsorAccountId] from the request,
    and no message written by the tools sets [relayed]. *)
Lemma signed_message_has_no_pinned_sponsor paymentRequest id now signedBytes seq :
  sponsorAccountId (signedPaymentMessage paymentRequest id now signedBytes seq) = None.
Proof. reflexivity. Qed.

Lemma relayed_is_never_written :
  (forall params client id now nonce' expires fee bytes,
      relayed (paymentRequestMessage params client id now nonce' expires fee bytes) = None)
  /\ (forall paymentRequest id now signedBytes seq,
      relayed (signedPaymentMessage paymentRequest id now signedBytes seq) = None)
  /\ (forall id client now transactionId' gas fee,
      relayed (completionMessage id client now transactionId' gas fee) = None).
Proof. by repeat split. Qed.

(** The check on the sponsor does what it says on the message it is
    given: a message that names a sponsor is refused to everyone else, a
    message that names none is open to everyone. *)
Lemma validateSponsorAuthorization_rejects signedPayment client w :
  truthyStr (sponsorAccountId signedPayment) = true ->
  sponsorAccountId signedPayment <> operatorAccountId client ->
  exists reason, validateSponsorAuthorization signedPayment client w = (Thrown reason, w).
Proof.
  intros Hpinned Hother. unfold validateSponsorAuthorization. rewrite Hpinned.
  rewrite (bool_decide_eq_false_2 _ Hother). simpl. by eexists.
Qed.

Lemma validateSponsorAuthorization_unpinned signedPayment client w :
  sponsorAccountId signedPayment = None ->
  validateSponsorAuthorization signedPayment client w = (Returned tt, w).
Proof. intros Hnone. unfold validateSponsorAuthorization. by rewrite Hnone. Qed.

(** Hence every SIGNED message that the sign tool writes passes the check,
    whoever relays and whatever sponsor the request had pinned. *)
Lemma signed_by_tool_is_open_to_every_sponsor
    paymentRequest id now signedBytes seq client w :
  validateSponsorAuthorization
    (signedPaymentMessage paymentRequest id now signedBytes seq) client w
  = (Returned tt, w).
Proof. by apply validateSponsorAuthorization_unpinned. Qed.

(** C7.  U creates a request that pins the sponsor 0.0.3003 and signs it;
    the sponsor 0.0.4004 then relays the SIGNED message.  The request in the
    log names 0.0.3003, the SIGNED message names nobody, the relay succeeds
    and the transfer is executed by 0.0.4004. *)
Theorem C7_pinned_sponsor_is_not_enforced :
  let w := Scenario.signed (Some "0.0.3003") in
  let run := relayGaslessPayment (net := Scenario.network)
               Scenario.sponsorS' Scenario.context Scenario.relayA w in
  map (fun msg => message msg ≫= sponsorAccountId) (topicLog w Scenario.topic)
    = [Some "0.0.3003"; None]
  /\ ledger w = []
  /\ fst run = ToolOk (mkRelayResponse "transaction-0" (Some Scenario.idA)
                         (Some "0.0.4004") 0.01%Q 0.01%Q)
  /\ ledger (snd run) = ["dHJhbnNmZXI=+key-U+key-S'"%string]
  /\ Scenario.kinds (topicLog (snd run) Scenario.topic)
     = [Some "gasless_payment_request"; Some "gasless_payment_signed";
        Some "gasless_payment_completed"].
Proof. vm_compute. repeat split; reflexivity. Qed.

(** ** Relaying twice *)

(** What [validateSignedPayment] answers depends on the SIGNED message
    alone: the log, and any COMPLETED message in it, is not consulted. *)
Lemma validateSignedPayment_ignores_the_log signedPayment w w' :
  fst (validateSignedPayment signedPayment w) = fst (validateSignedPayment signedPayment w').
Proof.
  unfold validateSignedPayment.
  destruct (negb _); [done|]. destruct (negb _); [done|]. by destruct (truthyBool _).
Qed.

(** C8.  After create, sign and relay the log holds REQUEST(A), SIGNED(A),
    COMPLETED(A).  A second relay of the same SIGNED message, here by another
    sponsor, is not refused: it executes the signed transfer again and
    appends a second COMPLETED message. *)
Theorem C8_second_relay_is_not_refused :
  let w := Scenario.relayed None Scenario.sponsorS in
  let run := relayGaslessPayment (net := Scenario.network)
               Scenario.sponsorS' Scenario.context Scenario.relayA w in
  Scenario.kinds (topicLog w Scenario.topic)
    = [Some "gasless_payment_request"; Some "gasless_payment_signed";
       Some "gasless_payment_completed"]
  /\ ledger w = ["dHJhbnNmZXI=+key-U+key-S"%string]
  /\ fst run = ToolOk (mkRelayResponse "transaction-1" (Some Scenario.idA)
                         (Some "0.0.4004") 0.01%Q 0.01%Q)
  /\ ledger (snd run)
     = ["dHJhbnNmZXI=+key-U+key-S"%string; "dHJhbnNmZXI=+key-U+key-S'"%string]
  /\ Scenario.kinds (topicLog (snd run) Scenario.topic)
     = [Some "gasless_payment_request"; Some "gasless_payment_signed";
        Some "gasless_payment_completed"; Some "gasless_payment_completed"].
Proof. vm_compute. repeat split; reflexivity. Qed.

(** ** Effects on the topics *)

Section Frames.

Context {net : Network}.

Lemma keepsTopics_ret {A} (a : A) : keepsTopics (ret a).
Proof. by intros w. Qed.

Lemma keepsTopics_throw {A} reason : keepsTopics (@throw A reason).
Proof. by intros w. Qed.

Lemma keepsTopics_fromOption {A} reason (o : option A) : keepsTopics (fromOption reason o).
Proof. by destruct o. Qed.

Lemma keepsTopics_dateNow : keepsTopics dateNow.
Proof. by intros w. Qed.

Lemma keepsTopics_getTopicMessages topicId : keepsTopics (getTopicMessages topicId).
Proof. by intros w. Qed.

Lemma keepsTopics_executeTransaction bytes : keepsTopics (executeTransaction bytes).
Proof. intros w. unfold executeTransaction. by destruct (executeBytes _ _). Qed.

Lemma keepsTopics_bind {A B} (m : M A) (k : A -> M B) :
  keepsTopics m -> (forall a, keepsTopics (k a)) -> keepsTopics (bind m k).
Proof.
  intros Hm Hk w. unfold bind. specialize (Hm w).
  destruct (m w) as [[a|reason] w1]; simpl in *; [|done].
  by rewrite Hk.
Qed.

Lemma keepsTopics_rethrow {A} prefix (m : M A) :
  keepsTopics m -> keepsTopics (rethrow prefix m).
Proof.
  intros Hm w. unfold rethrow. specialize (Hm w).
  by destruct (m w) as [[a|reason] w1].
Qed.

Lemma keepsTopics_if {A} (b : bool) (m1 m2 : M A) :
  keepsTopics m1 -> keepsTopics m2 -> keepsTopics (if b then m1 else m2).
Proof. by destruct b. Qed.

Lemma throwsBeforeWriting_keeps {A} (m : M A) : keepsTopics m -> throwsBeforeWriting m.
Proof. intros Hm w reason w' Hrun. specialize (Hm w). by rewrite Hrun in Hm. Qed.

Lemma throwsBeforeWriting_bind {A B} (m : M A) (k : A -> M B) :
  keepsTopics m -> (forall a, throwsBeforeWriting (k a)) -> throwsBeforeWriting (bind m k).
Proof.
  intros Hm Hk w reason w' Hrun. unfold bind in Hrun. specialize (Hm w).
  destruct (m w) as [[a|reason1] w1]; simpl in *.
  - rewrite <- Hm. by eapply Hk.
  - by simplify_eq.
Qed.

(** The last step of every tool: the message is submitted and the response
    is returned; nothing can throw any more. *)
Lemma throwsBeforeWriting_submit {A} topicId data (k : Z -> A) :
  throwsBeforeWriting (bind (submitTopicMessage topicId data) (fun seq => ret (k seq))).
Proof. intros w reason w' Hrun. discriminate Hrun. Qed.

Lemma tool_error_appends_nothing {A} desc (body : M A) w reason w' :
  throwsBeforeWriting body ->
  tool desc body w = (ToolError reason, w') -> topics w' = topics w.
Proof.
  intros Hbody Hrun. unfold tool in Hrun.
  destruct (body w) as [[a|reason1] w1] eqn:Hb; simplify_eq.
  by eapply Hbody.
Qed.

Lemma bind_returned {A B} (m : M A) (k : A -> M B) w b w' :
  bind m k w = (Returned b, w') ->
  exists a w1, m w = (Returned a, w1) /\ k a w1 = (Returned b, w').
Proof.
  unfold bind. destruct (m w) as [[a|reason] w1]; [|done]. by exists a, w1.
Qed.

Lemma tool_ok {A} desc (body : M A) w response w' :
  tool desc body w = (ToolOk response, w') -> body w = (Returned response, w').
Proof.
  unfold tool. destruct (body w) as [[a|reason] w1]; intros; by simplify_eq.
Qed.

End Frames.

Create HintDb topics.

#[local] Hint Resolve keepsTopics_ret keepsTopics_throw keepsTopics_fromOption
  keepsTopics_dateNow keepsTopics_getTopicMessages keepsTopics_executeTransaction
  keepsTopics_rethrow keepsTopics_if : topics.

(** ** Signing *)

Section Signing.

Context {net : Network}.

Lemma getPaymentRequestFromTopic_world topicId seq context w outcome w' :
  getPaymentRequestFromTopic topicId seq context w = (outcome, w') -> w' = w.
Proof.
  unfold getPaymentRequestFromTopic, rethrow, bind, getTopicMessages, ret, throw.
  intros Hrun. repeat (case_match; simplify_eq/=); done.
Qed.

Lemma keepsTopics_getPaymentRequestFromTopic topicId seq context :
  keepsTopics (getPaymentRequestFromTopic topicId seq context).
Proof.
  intros w. destruct (getPaymentRequestFromTopic topicId seq context w) as [o w'] eqn:Hrun.
  by rewrite (getPaymentRequestFromTopic_world _ _ _ _ _ _ Hrun).
Qed.

Lemma keepsTopics_validatePaymentRequest paymentRequest client id :
  keepsTopics (validatePaymentRequest paymentRequest client id).
Proof.
  unfold validatePaymentRequest.
  repeat (apply keepsTopics_if; [by auto with topics|]).
  apply keepsTopics_bind.
  - apply keepsTopics_if; [|by auto with topics].
    apply keepsTopics_bind; auto with topics.
  - intros expired. repeat apply keepsTopics_if; auto with topics.
Qed.

Lemma keepsTopics_signTransaction bytes key : keepsTopics (signTransaction bytes key).
Proof. unfold signTransaction. destruct bytes; auto with topics. Qed.

(** A refused signature appends nothing to any topic. *)
Lemma sign_failure_appends_nothing client context params w reason w' :
  signGaslessPayment client context params w = (ToolError reason, w') ->
  topics w' = topics w.
Proof.
  apply tool_error_appends_nothing.
  apply throwsBeforeWriting_bind; [apply keepsTopics_getPaymentRequestFromTopic|].
  intros paymentRequest.
  apply throwsBeforeWriting_bind; [apply keepsTopics_validatePaymentRequest|].
  intros _.
  apply throwsBeforeWriting_bind; [apply keepsTopics_signTransaction|].
  intros signedBytes.
  apply throwsBeforeWriting_bind; [apply keepsTopics_dateNow|].
  intros now. apply throwsBeforeWriting_submit.
Qed.

(** What [validatePaymentRequest] has checked when it returns: the fields
    of the REQUEST message itself, and the clock. *)
Lemma validatePaymentRequest_returned paymentRequest client id w u w' :
  validatePaymentRequest paymentRequest client id w = (Returned u, w') ->
  paymentRequestId paymentRequest = Some id
  /\ sender paymentRequest = operatorAccountId client
  /\ status paymentRequest = Some "pending"%string
  /\ (forall e, expirationTime paymentRequest = Some e -> e <> 0 -> clock (ticks w) <= e)
  /\ is_Some (operatorPrivateKey client).
Proof.
  unfold validatePaymentRequest.
  destruct (bool_decide (paymentRequestId paymentRequest = Some id)) eqn:Hid;
    [|done]. apply bool_decide_eq_true in Hid.
  destruct (bool_decide (sender paymentRequest = operatorAccountId client)) eqn:Hsender;
    [|done]. apply bool_decide_eq_true in Hsender.
  destruct (bool_decide (status paymentRequest = Some "pending"%string)) eqn:Hstatus;
    [|done]. apply bool_decide_eq_true in Hstatus.
  cbn [negb]. unfold bind, dateNow, ret, throw, truthyNum.
  destruct (expirationTime paymentRequest) as [e|] eqn:Hexp.
  - destruct (e =? 0) eqn:Hzero; cbn [negb].
    + destruct (bool_decide (is_Some (operatorPrivateKey client))) eqn:Hkey; [|done].
      apply bool_decide_eq_true in Hkey. intros _. repeat split; try done.
      intros e' [= <-] Hne. apply Z.eqb_eq in Hzero. done.
    + destruct (e <? clock (ticks w)) eqn:Hlt; [done|].
      destruct (bool_decide (is_Some (operatorPrivateKey client))) eqn:Hkey; [|done].
      apply bool_decide_eq_true in Hkey. intros _. repeat split; try done.
      intros e' [= <-] _. by apply Z.ltb_ge in Hlt.
  - destruct (bool_decide (is_Some (operatorPrivateKey client))) eqn:Hkey; [|done].
    apply bool_decide_eq_true in Hkey. intros _. repeat split; done.
Qed.

(** An accepted signature was given by the sender of a REQUEST message whose
    own [status] field reads "pending" and which had not expired. *)
Lemma sign_success_passed_the_guards client context params w response w' :
  signGaslessPayment client context params w = (ToolOk response, w') ->
  exists paymentRequest,
    getPaymentRequestFromTopic (SignParams.topicId params)
        (SignParams.sequenceNumber params) context w
      = (Returned paymentRequest, w)
    /\ paymentRequestId paymentRequest = Some (SignParams.paymentRequestId params)
    /\ sender paymentRequest = operatorAccountId client
    /\ status paymentRequest = Some "pending"%string
    /\ (forall e, expirationTime paymentRequest = Some e -> e <> 0 -> clock (ticks w) <= e)
    /\ is_Some (operatorPrivateKey client).
Proof.
  intros Hrun. apply tool_ok in Hrun.
  apply bind_returned in Hrun as (paymentRequest & w1 & Hget & Hrun).
  pose proof (getPaymentRequestFromTopic_world _ _ _ _ _ _ Hget) as ->.
  apply bind_returned in Hrun as (u & w2 & Hvalid & _).
  exists paymentRequest. split; [done|].
  by eapply validatePaymentRequest_returned.
Qed.

(** X14.  A caller who is not the sender of the request is refused: the
    sign tool answers an error and every topic stays as it was. *)
Lemma sign_refused_to_foreign_sender client context params w :
  (forall paymentRequest,
      getPaymentRequestFromTopic (SignParams.topicId params)
          (SignParams.sequenceNumber params) context w
        = (Returned paymentRequest, w) ->
      sender paymentRequest <> operatorAccountId client) ->
  exists reason w',
    signGaslessPayment client context params w = (ToolError reason, w')
    /\ topics w' = topics w.
Proof.
  intros Hforeign.
  destruct (signGaslessPayment client context params w) as [[response|reason] w'] eqn:Hrun.
  - apply sign_success_passed_the_guards in Hrun as (pr & Hget & _ & Hsender & _).
    by destruct (Hforeign pr Hget).
  - exists reason, w'. split; [done|]. by eapply sign_failure_appends_nothing.
Qed.

(** X15.  A caller who comes after the expiration time of the request is
    refused: the sign tool answers an error and every topic stays as it
    was. *)
Lemma sign_refused_after_expiration client context params w :
  (forall paymentRequest,
      getPaymentRequestFromTopic (SignParams.topicId params)
          (SignParams.sequenceNumber params) context w
        = (Returned paymentRequest, w) ->
      exists e, expirationTime paymentRequest = Some e /\ e <> 0 /\ e < clock (ticks w)) ->
  exists reason w',
    signGaslessPayment client context params w = (ToolError reason, w')
    /\ topics w' = topics w.
Proof.
  intros Hexpired.
  destruct (signGaslessPayment client context params w) as [[response|reason] w'] eqn:Hrun.
  - apply sign_success_passed_the_guards in Hrun as (pr & Hget & _ & _ & _ & Hfresh & _).
    destruct (Hexpired pr Hget) as (e & He & Hne & Hlt).
    specialize (Hfresh e He Hne). lia.
  - exists reason, w'. split; [done|]. by eapply sign_failure_appends_nothing.
Qed.

End Signing.

(** C9.  U has created and signed the request A: the log holds REQUEST(A),
    SIGNED(A) and the query shows A as "signed".  U signs A again, long before
    it expires.  The tool reads the [status] field of the REQUEST message,
    which still says "pending", accepts, and appends a second SIGNED
    message. *)
Theorem C9_second_signature_is_accepted :
  let w := Scenario.signed None in
  let run := signGaslessPayment (net := Scenario.network)
               Scenario.payer Scenario.context Scenario.signA w in
  Scenario.kinds (topicLog w Scenario.topic)
    = [Some "gasless_payment_request"; Some "gasless_payment_signed"]
  /\ map Scenario.summary
       (Query.queryPaymentsFromTopic (clock (Network := Scenario.network))
          (topicLog w Scenario.topic) None (ticks w))
     = [(Some Scenario.idA, Some "signed"%string, None, None)]
  /\ fst run = ToolOk (mkSignResponse Scenario.idA Scenario.topic 3)
  /\ Scenario.kinds (topicLog (snd run) Scenario.topic)
     = [Some "gasless_payment_request"; Some "gasless_payment_signed";
        Some "gasless_payment_signed"].
Proof. vm_compute. repeat split; reflexivity. Qed.

(** ** Creating: the defaults *)

Section Creating.

Context {net : Network}.

(** [value || Date.now() + extra] with a falsy [value] is the clock. *)
Lemma orNow_zero extra w :
  orNow (Some 0) extra w
  = (Returned (clock (ticks w) + extra),
     mkWorld (topics w) (ledger w) (S (ticks w)) (env_P2P_GASLESS_TOPIC_ID w)).
Proof. reflexivity. Qed.

Lemma orNow_topics value extra w a w' :
  orNow value extra w = (Returned a, w') -> topics w' = topics w.
Proof.
  unfold orNow, bind, dateNow, ret.
  destruct value as [v|]; [destruct (v =? 0)|]; intros; by simplify_eq.
Qed.

Lemma validatePaymentParams_world params w outcome w' :
  validatePaymentParams params w = (outcome, w') -> w' = w.
Proof.
  unfold validatePaymentParams, ret, throw.
  intros Hrun. repeat (case_match; simplify_eq/=); done.
Qed.

Lemma fromOption_returned {A} reason (o : option A) w a w' :
  fromOption reason o w = (Returned a, w') -> o = Some a /\ w' = w.
Proof. destruct o; unfold fromOption, ret, throw; intros; by simplify_eq. Qed.

Lemma getOrCreateP2PTopic_world context w outcome w' :
  getOrCreateP2PTopic context w = (outcome, w') -> w' = w.
Proof.
  unfold getOrCreateP2PTopic, ret, throw.
  intros Hrun. repeat (case_match; simplify_eq/=); done.
Qed.

Lemma submitTopicMessage_log topicId data w seq w' :
  submitTopicMessage topicId data w = (Returned seq, w') ->
  topicLog w' topicId
    = topicLog w topicId ++ [mkTopicMessage seq (consensusStamp seq) (Some data)].
Proof.
  unfold submitTopicMessage. intros [= <- <-].
  unfold topicLog at 1. simpl. by rewrite lookup_insert_eq.
Qed.

(** C10.  When the create tool succeeds, it has appended one REQUEST message
    to its topic.  If the caller passed the nonce 0, the nonce of that
    message is the reading of the clock taken at the start of the call, and
    if the caller passed a maximum fee equal to 0, its maximum fee is 0.05:
    neither a zero nonce nor a zero maximum fee can be requested. *)
Theorem C10_falsy_nonce_and_fee_are_replaced
    (client : Client) (context : Context) (params : CreateParams.t)
    (w w' : World) (response : CreateResponse) :
  createGaslessPayment client context params w = (ToolOk response, w') ->
  exists request,
    topicLog w' (created_topicId response)
      = topicLog w (created_topicId response)
          ++ [mkTopicMessage (created_sequenceNumber response)
                (consensusStamp (created_sequenceNumber response)) (Some request)]
    /\ type_ request = Some "gasless_payment_request"%string
    /\ (CreateParams.nonce params = Some 0 -> nonce request = Some (clock (ticks w)))
    /\ (forall fee, CreateParams.maxFee params = Some fee -> (fee == 0)%Q ->
          maxFee request = Some 0.05%Q).
Proof.
  intros Hrun. apply tool_ok in Hrun. unfold createGaslessPayment in Hrun.
  apply bind_returned in Hrun as (nonce' & w1 & Hnonce & Hrun).
  apply bind_returned in Hrun as (expirationTime' & w2 & Hexp & Hrun).
  apply bind_returned in Hrun as (u & w3 & Hvalid & Hrun).
  apply validatePaymentParams_world in Hvalid as ->.
  apply bind_returned in Hrun as (transactionBytes' & w4 & Hbytes & Hrun).
  apply fromOption_returned in Hbytes as [Hbytes ->].
  apply bind_returned in Hrun as (sender' & w5 & Hsender & Hrun).
  apply fromOption_returned in Hsender as [Hsender ->].
  apply bind_returned in Hrun as (now & w6 & Hnow & Hrun).
  apply bind_returned in Hrun as (topicId & w7 & Htopic & Hrun).
  apply getOrCreateP2PTopic_world in Htopic as ->.
  apply bind_returned in Hrun as (seq & w8 & Hsubmit & Hret).
  unfold ret in Hret. injection Hret as <- <-.
  eexists. split; [|split; [|split]].
  - cbn [created_topicId created_sequenceNumber].
    rewrite (submitTopicMessage_log _ _ _ _ _ Hsubmit). f_equal.
    unfold topicLog. f_equal.
    unfold dateNow in Hnow. injection Hnow as _ <-. cbn [topics].
    rewrite (orNow_topics _ _ _ _ _ Hexp). by rewrite (orNow_topics _ _ _ _ _ Hnonce).
  - reflexivity.
  - intros Hzero. rewrite Hzero, orNow_zero in Hnonce.
    injection Hnonce as <- _. cbn [nonce paymentRequestMessage]. f_equal. lia.
  - intros fee Hfee Hzero. cbn [maxFee paymentRequestMessage]. rewrite Hfee.
    apply Qeq_bool_iff in Hzero. by rewrite Hzero.
Qed.

End Creating.

(** The theorem at a call of U with nonce 0 and maximum fee 0 in the empty
    world: the request posted has the nonce 1700000000000, the first reading
    of the clock, and the maximum fee 0.05. *)
Lemma C10_witness_zero_nonce_zero_fee :
  exists request,
    topicLog
      (snd (createGaslessPayment (net := Scenario.network) Scenario.payer Scenario.context
              (CreateParams.mk HBAR_TRANSFER "0.0.2002" None None 10 None (Some 0%Q)
                 None None (Some 0))
              Scenario.world0))
      Scenario.topic
    = [mkTopicMessage 1 "1" (Some request)]
    /\ nonce request = Some 1700000000000
    /\ maxFee request = Some 0.05%Q.
Proof.
  destruct (C10_falsy_nonce_and_fee_are_replaced (net := Scenario.network)
              Scenario.payer Scenario.context
              (CreateParams.mk HBAR_TRANSFER "0.0.2002" None None 10 None (Some 0%Q)
                 None None (Some 0))
              Scenario.world0
              (snd (createGaslessPayment (net := Scenario.network) Scenario.payer
                      Scenario.context
                      (CreateParams.mk HBAR_TRANSFER "0.0.2002" None None 10 None
                         (Some 0%Q) None None (Some 0))
                      Scenario.world0))
              (mkCreateResponse Scenario.topic 1
                 (Id.generatePaymentRequestId "0.0.1001" "0.0.2002" 1700000000000)
                 "dHJhbnNmZXI="))
    as (request & Hlog & _ & Hnonce & Hfee).
  - vm_compute. reflexivity.
  - exists request. split; [exact Hlog|]. split.
    + apply Hnonce. reflexivity.
    + apply (Hfee 0%Q); reflexivity.
Defined.

End WritePathFacts.

(** * The read path: filters, limit, order and ignored messages *)

Module QueryLaws.

Import Query QueryFacts.

Local Open Scope list_scope.

Section Ignored.

Variable clock : nat -> Z.
Variable filters : option Filters.

Lemma step_passedOver st msg :
  passedOver msg = true -> processMessage clock filters st msg = st.
Proof.
  unfold passedOver. intros Hskip.
  destruct (message msg) as [data|] eqn:Hm; [|by apply step_unparsed].
  apply andb_prop in Hskip as [Hskip Hr]. apply andb_prop in Hskip as [Ht Hs].
  apply negb_true_iff in Ht, Hs, Hr. by apply (step_other _ _ _ _ data).
Qed.

Lemma query_of_payments messages1 messages2 reads0 :
  payments (runLoop clock filters (initial reads0) messages1)
    = payments (runLoop clock filters (initial reads0) messages2) ->
  queryPaymentsFromTopic clock messages1 filters reads0
    = queryPaymentsFromTopic clock messages2 filters reads0.
Proof. unfold queryPaymentsFromTopic. by intros ->. Qed.

(** X1.  A message whose payload does not parse, or whose type is none of
    the four message types, can stand anywhere in the log: the answer is the
    one of the log without it. *)
Theorem unreadable_message_is_skipped reads0 pre msg post :
  passedOver msg = true ->
  queryPaymentsFromTopic clock (pre ++ msg :: post) filters reads0
    = queryPaymentsFromTopic clock (pre ++ post) filters reads0.
Proof.
  intros Hskip. apply query_of_payments.
  by rewrite !runLoop_app, runLoop_cons, step_passedOver.
Qed.

Lemma materialize_sameButUpdateOf id st st' msg data :
  sameButUpdateOf id st st' -> paymentRequestId data <> id ->
  materialize st msg data = materialize st' msg data.
Proof.
  intros (_ & _ & Hother) Hid. unfold materialize. by rewrite (Hother _ Hid).
Qed.

Lemma step_sameButUpdateOf id st st' msg :
  refersTo isRequest id msg = false ->
  sameButUpdateOf id st st' ->
  sameButUpdateOf id (processMessage clock filters st msg)
                     (processMessage clock filters st' msg).
Proof.
  unfold refersTo. intros Hno Hsame.
  destruct (message msg) as [data|] eqn:Hm; [|by rewrite !step_unparsed].
  destruct (isRequest data) eqn:Hr.
  - apply bool_decide_eq_false in Hno.
    rewrite !(step_request _ _ _ _ data) by done.
    rewrite (materialize_sameButUpdateOf id st st') by done.
    destruct Hsame as (Hpayments & Hreads & Hother). rewrite Hreads.
    destruct (checkExpiration clock (reads st') (materialize st' msg data)) as [p k].
    destruct (filteredOut filters p); repeat split; simpl; try done.
    by rewrite Hpayments.
  - destruct Hsame as (Hpayments & Hreads & Hother).
    destruct (isTerminal data) eqn:Ht.
    { rewrite !(step_terminal _ _ _ _ data) by done. repeat split; simpl; try done.
      intros k Hk. destruct (decide (paymentRequestId data = k)) as [->|Hne].
      - by rewrite !lookup_insert_eq.
      - rewrite !lookup_insert_ne by done. by apply Hother. }
    destruct (isSigned data) eqn:Hs.
    + rewrite !(step_signed _ _ _ _ data) by done. repeat split; simpl; try done.
      by rewrite Hpayments.
    + by rewrite !(step_other _ _ _ _ data).
Qed.

Lemma runLoop_sameButUpdateOf id messages : forall st st',
  Forall (fun msg => refersTo isRequest id msg = false) messages ->
  sameButUpdateOf id st st' ->
  sameButUpdateOf id (runLoop clock filters st messages)
                     (runLoop clock filters st' messages).
Proof.
  induction messages as [|msg messages IH]; intros st st' Hall Hsame; [done|].
  inversion Hall as [|? ? Hmsg Hrest]; subst.
  rewrite !runLoop_cons. apply IH; [done|]. by apply step_sameButUpdateOf.
Qed.

(** X2.  A COMPLETED or FAILED message that no REQUEST for its id follows
    does not reach the answer, whatever else comes after it, SIGNED messages
    for the id included: the query answers as if the message had not been
    posted. *)
Theorem trailing_completions_change_nothing reads0 pre msg data post :
  message msg = Some data -> isTerminal data = true ->
  Forall (fun later => refersTo isRequest (paymentRequestId data) later = false) post ->
  queryPaymentsFromTopic clock (pre ++ msg :: post) filters reads0
    = queryPaymentsFromTopic clock (pre ++ post) filters reads0.
Proof.
  intros Hm Ht Hpost. apply query_of_payments.
  rewrite !runLoop_app, runLoop_cons.
  apply (runLoop_sameButUpdateOf (paymentRequestId data)); [done|].
  rewrite (step_terminal _ _ _ _ _ Hm Ht). repeat split; simpl.
  intros k Hk. by rewrite lookup_insert_ne.
Qed.

End Ignored.

Lemma X1_witness_garbage_between_requests :
  queryPaymentsFromTopic (fun _ => 0)
      ([Scenario.entry 1 (Scenario.requestOf Scenario.idA 10 Scenario.farFuture)]
         ++ mkTopicMessage 2 "2" None
         :: [Scenario.entry 3 (Scenario.requestOf "B" 30 Scenario.farFuture)])
      None 0
    = queryPaymentsFromTopic (fun _ => 0)
        ([Scenario.entry 1 (Scenario.requestOf Scenario.idA 10 Scenario.farFuture)]
           ++ [Scenario.entry 3 (Scenario.requestOf "B" 30 Scenario.farFuture)])
        None 0.
Proof.
  apply (unreadable_message_is_skipped (fun _ => 0) None 0). reflexivity.
Defined.

Lemma X2_witness_completion_between_request_and_signature :
  queryPaymentsFromTopic (fun _ => 0)
      (take 1 Scenario.completedBeforeSigned
         ++ Scenario.entry 2
              (Scenario.completedOf Scenario.idA Scenario.sponsorS 1700000000020 0.01)
         :: drop 2 Scenario.completedBeforeSigned)
      None 0
    = queryPaymentsFromTopic (fun _ => 0)
        (take 1 Scenario.completedBeforeSigned ++ drop 2 Scenario.completedBeforeSigned)
        None 0.
Proof.
  apply (trailing_completions_change_nothing (fun _ => 0) None 0
           (take 1 Scenario.completedBeforeSigned)
           (Scenario.entry 2
              (Scenario.completedOf Scenario.idA Scenario.sponsorS 1700000000020 0.01))
           (Scenario.completedOf Scenario.idA Scenario.sponsorS 1700000000020 0.01)
           (drop 2 Scenario.completedBeforeSigned)).
  - reflexivity.
  - reflexivity.
  - vm_compute. repeat constructor.
Defined.

(** ** The limit *)

Lemma filteredOut_withLimit limit f p :
  filteredOut (Some (withLimit limit f)) p = filteredOut (Some f) p.
Proof. reflexivity. Qed.

Lemma processMessage_withLimit clock limit f st msg :
  processMessage clock (Some (withLimit limit f)) st msg
    = processMessage clock (Some f) st msg.
Proof.
  unfold processMessage. destruct (message msg) as [data|]; [|done].
  destruct (checkExpiration clock (reads st) (materialize st msg data)) as [p k].
  by rewrite filteredOut_withLimit.
Qed.

Lemma runLoop_withLimit clock limit f messages : forall st,
  runLoop clock (Some (withLimit limit f)) st messages
    = runLoop clock (Some f) st messages.
Proof.
  induction messages as [|msg messages IH]; intros st; [done|].
  by rewrite !runLoop_cons, processMessage_withLimit, IH.
Qed.

Lemma query_withLimit clock limit f messages reads0 :
  queryPaymentsFromTopic clock messages (Some (withLimit limit f)) reads0
    = let all := queryPaymentsFromTopic clock messages (Some (withLimit None f)) reads0 in
      if truthyNum limit then slice0 all (default 0 limit) else all.
Proof.
  unfold queryPaymentsFromTopic. rewrite !runLoop_withLimit. simpl.
  reflexivity.
Qed.

(** X3.  A positive limit cuts the answer after filtering and sorting: the
    answer is the first [limit] records of the answer to the same query
    without limit, hence never longer than [limit]. *)
Theorem positive_limit_takes_a_prefix
    (clock : nat -> Z) (f : Filters) (n : Z) (messages : list TopicMessage) (reads0 : nat) :
  0 < n ->
  queryPaymentsFromTopic clock messages (Some (withLimit (Some n) f)) reads0
    = take (Z.to_nat n)
        (queryPaymentsFromTopic clock messages (Some (withLimit None f)) reads0)
  /\ (Z.of_nat (List.length
         (queryPaymentsFromTopic clock messages (Some (withLimit (Some n) f)) reads0))
       <= n).
Proof.
  intros Hpos.
  assert (Heq : queryPaymentsFromTopic clock messages (Some (withLimit (Some n) f)) reads0
            = take (Z.to_nat n)
                (queryPaymentsFromTopic clock messages (Some (withLimit None f)) reads0)).
  { rewrite query_withLimit. simpl.
    rewrite (proj2 (Z.eqb_neq n 0)) by lia. simpl.
    unfold slice0. by rewrite (proj2 (Z.leb_le 0 n)) by lia. }
  split; [done|]. rewrite Heq, length_take. lia.
Qed.

Lemma X3_witness_limit_one :
  queryPaymentsFromTopic (fun _ => 0) Scenario.twoRequests
      (Some (withLimit (Some 1) noFilters)) 0
    = take 1 (queryPaymentsFromTopic (fun _ => 0) Scenario.twoRequests
                (Some (withLimit None noFilters)) 0)
  /\ (Z.of_nat (List.length
         (queryPaymentsFromTopic (fun _ => 0) Scenario.twoRequests
            (Some (withLimit (Some 1) noFilters)) 0))
       <= 1).
Proof.
  apply (positive_limit_takes_a_prefix (fun _ => 0) noFilters 1 Scenario.twoRequests 0).
  lia.
Defined.

(** X4.  The limit 0 is no limit: it is falsy, and the query answers every
    matching record. *)
Theorem zero_limit_is_no_limit
    (clock : nat -> Z) (f : Filters) (messages : list TopicMessage) (reads0 : nat) :
  queryPaymentsFromTopic clock messages (Some (withLimit (Some 0) f)) reads0
    = queryPaymentsFromTopic clock messages (Some (withLimit None f)) reads0.
Proof. by rewrite query_withLimit. Qed.

(** X5.  A negative limit counts from the end of the answer: with the limit
    [-k] the last [k] records of the sorted answer are dropped. *)
Theorem negative_limit_drops_the_oldest
    (clock : nat -> Z) (f : Filters) (k : nat) (messages : list TopicMessage) (reads0 : nat) :
  (0 < k)%nat ->
  let all := queryPaymentsFromTopic clock messages (Some (withLimit None f)) reads0 in
  queryPaymentsFromTopic clock messages (Some (withLimit (Some (- Z.of_nat k)) f)) reads0
    = take (List.length all - k) all.
Proof.
  intros Hpos all. rewrite query_withLimit. fold all. simpl.
  rewrite (proj2 (Z.eqb_neq (- Z.of_nat k) 0)) by lia. simpl.
  unfold slice0. rewrite (proj2 (Z.leb_gt 0 (- Z.of_nat k))) by lia.
  f_equal. lia.
Qed.

Lemma X5_witness_limit_minus_one :
  queryPaymentsFromTopic (fun _ => 0) Scenario.twoRequests
      (Some (withLimit (Some (- Z.of_nat 1)) noFilters)) 0
    = take (List.length
              (queryPaymentsFromTopic (fun _ => 0) Scenario.twoRequests
                 (Some (withLimit None noFilters)) 0) - 1)
        (queryPaymentsFromTopic (fun _ => 0) Scenario.twoRequests
           (Some (withLimit None noFilters)) 0).
Proof.
  apply (negative_limit_drops_the_oldest (fun _ => 0) noFilters 1 Scenario.twoRequests 0).
  lia.
Defined.

(** ** The filters *)

Lemma passed_meetsCriteria f p : filteredOut (Some f) p = false -> meetsCriteria f p.
Proof.
  unfold filteredOut. intros Hpass.
  apply orb_false_elim in Hpass as [Hpass _].
  apply orb_false_elim in Hpass as [Hpass Htype].
  apply orb_false_elim in Hpass as [Hsender Hrecipient].
  repeat split.
  - intros Htr. rewrite Htr in Hsender. simpl in Hsender.
    by apply negb_false_iff, bool_decide_eq_true in Hsender.
  - intros Htr. rewrite Htr in Hrecipient. simpl in Hrecipient.
    by apply negb_false_iff, bool_decide_eq_true in Hrecipient.
  - intros t Ht. rewrite Ht in Htype.
    by apply negb_false_iff, bool_decide_eq_true in Htype.
Qed.

Lemma passed_status f p s :
  filteredOut (Some f) p = false -> statusF f = Some s ->
  status (fields p) = Some (statusValue s).
Proof.
  unfold filteredOut. intros Hpass Hs.
  apply orb_false_elim in Hpass as [_ Hstatus]. rewrite Hs in Hstatus.
  by apply negb_false_iff, bool_decide_eq_true in Hstatus.
Qed.

Lemma markSigned_inv data seq ps p :
  p ∈ markSigned data seq ps ->
  p ∈ ps \/ exists q, q ∈ ps /\ p = signRecord data seq q.
Proof.
  induction ps as [|q ps IH]; simpl; [by left|].
  destruct (bool_decide _).
  - intros [->|Hin]%elem_of_cons.
    + right. exists q. split; [apply elem_of_cons; by left|done].
    + left. apply elem_of_cons. by right.
  - intros [->|Hin]%elem_of_cons.
    + left. apply elem_of_cons. by left.
    + destruct (IH Hin) as [?|(q' & Hq' & ->)].
      * left. apply elem_of_cons. by right.
      * right. exists q'. split; [apply elem_of_cons; by right|done].
Qed.

Section Criteria.

Variable clock : nat -> Z.
Variable f : Filters.

Lemma criteria_step st msg :
  Forall (fun p => meetsCriteria f p /\ statusAsAskedOrSigned f p) (payments st) ->
  Forall (fun p => meetsCriteria f p /\ statusAsAskedOrSigned f p)
         (payments (processMessage clock (Some f) st msg)).
Proof.
  intros Hall.
  destruct (message msg) as [data|] eqn:Hm; [|by rewrite step_unparsed].
  destruct (isTerminal data) eqn:Ht.
  { by rewrite (step_terminal _ _ _ _ _ Hm Ht). }
  destruct (isSigned data) eqn:Hs.
  { rewrite (step_signed _ _ _ _ _ Hm Hs). simpl.
    apply Forall_forall. intros p [Hin|(q & Hq & ->)]%markSigned_inv.
    - by apply (proj1 (Forall_forall _ _) Hall).
    - destruct (proj1 (Forall_forall _ _) Hall q Hq) as [Hcrit _].
      split; [exact Hcrit|]. intros s _. by right. }
  destruct (isRequest data) eqn:Hr; [|by rewrite (step_other _ _ _ _ _ Hm Ht Hs Hr)].
  rewrite (step_request _ _ _ _ _ Hm Hr).
  destruct (checkExpiration clock (reads st) (materialize st msg data)) as [p k].
  destruct (filteredOut (Some f) p) eqn:Hpass; simpl; [done|].
  apply Forall_app. split; [done|]. constructor; [|constructor]. split.
  - by apply passed_meetsCriteria.
  - intros s Hs'. left. by apply (passed_status f).
Qed.

Lemma criteria_run messages : forall st,
  Forall (fun p => meetsCriteria f p /\ statusAsAskedOrSigned f p) (payments st) ->
  Forall (fun p => meetsCriteria f p /\ statusAsAskedOrSigned f p)
         (payments (runLoop clock (Some f) st messages)).
Proof.
  induction messages as [|msg messages IH]; intros st Hst; [done|].
  rewrite runLoop_cons. by apply IH, criteria_step.
Qed.

Lemma answer_is_pushed messages filters reads0 p :
  p ∈ queryPaymentsFromTopic clock messages filters reads0 ->
  p ∈ payments (runLoop clock filters (initial reads0) messages).
Proof.
  intros Hin.
  assert (Hsorted : p ∈ sortPayments (payments (runLoop clock filters (initial reads0) messages))).
  { unfold queryPaymentsFromTopic in Hin. destruct filters as [g|]; [|done].
    destruct (truthyNum (limitF g)); [|done]. by eapply ReadPath.slice0_elem. }
  by rewrite ReadPath.sortPayments_perm in Hsorted.
Qed.

(** X6.  The sender, recipient and payment type criteria are kept by every
    record of the answer: whatever the log, a record answered to a query for
    the sender [s] has the sender [s], and likewise for the recipient and the
    payment type. *)
Theorem answer_meets_sender_recipient_and_type messages reads0 p :
  p ∈ queryPaymentsFromTopic clock messages (Some f) reads0 -> meetsCriteria f p.
Proof.
  intros Hin%answer_is_pushed.
  pose proof (criteria_run messages (initial reads0) (Forall_nil_2 _)) as Hall.
  by destruct (proj1 (Forall_forall _ _) Hall p Hin).
Qed.

(** X7.  The status criterion is tested when the record is pushed, and a
    SIGNED message read later still marks the record: a record answered to a
    query for the status [s] has the status [s] or the status "signed". *)
Theorem answer_has_status_asked_or_signed messages reads0 p s :
  p ∈ queryPaymentsFromTopic clock messages (Some f) reads0 ->
  statusF f = Some s ->
  status (fields p) = Some (statusValue s) \/ status (fields p) = Some "signed".
Proof.
  intros Hin%answer_is_pushed Hs.
  pose proof (criteria_run messages (initial reads0) (Forall_nil_2 _)) as Hall.
  destruct (proj1 (Forall_forall _ _) Hall p Hin) as [_ Hstatus]. by apply Hstatus.
Qed.

End Criteria.

Lemma X6_witness_query_for_sender :
  meetsCriteria (mkFilters (Some "0.0.1001") None (Some HBAR_TRANSFER) None None)
    (mkPayment (Scenario.requestOf Scenario.idA 1700000000020 Scenario.farFuture)
       2 "2" None None).
Proof.
  apply (answer_meets_sender_recipient_and_type (fun _ => 0)
           (mkFilters (Some "0.0.1001") None (Some HBAR_TRANSFER) None None)
           Scenario.twoRequests 0).
  vm_compute. constructor.
Defined.

(** A query for PENDING requests over REQUEST(A), SIGNED(A) answers A, marked
    "signed". *)
Lemma X7_witness_pending_query_answers_signed :
  status (fields
            (signRecord
               (Scenario.signedOf Scenario.idA
                  (Scenario.requestOf Scenario.idA 10 Scenario.farFuture) 20 1)
               2
               (mkPayment (Scenario.requestOf Scenario.idA 10 Scenario.farFuture)
                  1 "1" None None)))
    = Some (statusValue PENDING)
  \/ status (fields
               (signRecord
                  (Scenario.signedOf Scenario.idA
                     (Scenario.requestOf Scenario.idA 10 Scenario.farFuture) 20 1)
                  2
                  (mkPayment (Scenario.requestOf Scenario.idA 10 Scenario.farFuture)
                     1 "1" None None)))
      = Some "signed"%string.
Proof.
  apply (answer_has_status_asked_or_signed (fun _ => 0)
           (mkFilters None None None (Some PENDING) None)
           [Scenario.entry 1 (Scenario.requestOf Scenario.idA 10 Scenario.farFuture);
            Scenario.entry 2
              (Scenario.signedOf Scenario.idA
                 (Scenario.requestOf Scenario.idA 10 Scenario.farFuture) 20 1)]
           0).
  - vm_compute. constructor.
  - reflexivity.
Defined.

(** ** Asking for signed requests *)

Section AskingForSigned.

Variable clock : nat -> Z.
Variable f : Filters.
Hypothesis asks_signed : statusF f = Some SIGNED.

Lemma checkExpiration_status k p :
  status (fields (fst (checkExpiration clock k p))) = status (fields p)
  \/ status (fields (fst (checkExpiration clock k p))) = Some "expired"%string.
Proof.
  unfold checkExpiration. destruct (truthyNum _); [|by left].
  destruct (_ && _); [by right|by left].
Qed.

Lemma nothingSigned_step st msg :
  requestNotSigned msg -> nothingSigned st ->
  nothingSigned (processMessage clock (Some f) st msg).
Proof.
  intros Hmsg [Hnone Hupd].
  destruct (message msg) as [data|] eqn:Hm; [|by rewrite step_unparsed].
  destruct (isTerminal data) eqn:Ht.
  { rewrite (step_terminal _ _ _ _ _ Hm Ht). split; [done|]. simpl.
    intros id u. rewrite lookup_insert. case_decide.
    - intros [= <-]. unfold statusUpdateOf. simpl. by destruct (hasType data _).
    - apply Hupd. }
  destruct (isSigned data) eqn:Hs.
  { rewrite (step_signed _ _ _ _ _ Hm Hs). split; [|done]. simpl. by rewrite Hnone. }
  destruct (isRequest data) eqn:Hr; [|by rewrite (step_other _ _ _ _ _ Hm Ht Hs Hr)].
  rewrite (step_request _ _ _ _ _ Hm Hr).
  pose proof (checkExpiration_status (reads st) (materialize st msg data)) as Hst.
  destruct (checkExpiration clock (reads st) (materialize st msg data)) as [p k].
  simpl in Hst.
  assert (Hout : filteredOut (Some f) p = true).
  { unfold filteredOut. rewrite asks_signed.
    assert (Hne : status (fields p) <> Some (statusValue SIGNED)).
    { destruct Hst as [-> | ->]; [|done]. unfold materialize.
      destruct (statusUpdates st !! paymentRequestId data) as [u|] eqn:Hu; simpl.
      - intros [= Heq]. by apply (Hupd _ _ Hu).
      - by apply Hmsg. }
    rewrite (bool_decide_eq_false_2 _ Hne). simpl. apply orb_true_r. }
  rewrite Hout. by split.
Qed.

Lemma nothingSigned_run messages : forall st,
  Forall requestNotSigned messages -> nothingSigned st ->
  nothingSigned (runLoop clock (Some f) st messages).
Proof.
  induction messages as [|msg messages IH]; intros st Hall Hst; [done|].
  inversion Hall as [|? ? Hmsg Hrest]; subst.
  rewrite runLoop_cons. by apply IH, nothingSigned_step.
Qed.

End AskingForSigned.

(** X8.  A query for the status "signed" answers nothing, whatever
    signatures the log holds, unless a REQUEST payload itself says "signed":
    the request is tested, and dropped, when it is read, before any SIGNED
    message can mark it. *)
Theorem query_for_signed_answers_nothing
    (clock : nat -> Z) (f : Filters) (messages : list TopicMessage) (reads0 : nat) :
  statusF f = Some SIGNED ->
  Forall requestNotSigned messages ->
  queryPaymentsFromTopic clock messages (Some f) reads0 = [].
Proof.
  intros Hasks Hall.
  destruct (nothingSigned_run clock f Hasks messages (initial reads0) Hall) as [Hnone _].
  { split; [done|]. intros id u. simpl. by rewrite lookup_empty. }
  unfold queryPaymentsFromTopic. rewrite Hnone. simpl.
  destruct (truthyNum (limitF f)); [|done].
  unfold slice0. destruct (0 <=? _); by rewrite take_nil.
Qed.

Lemma X8_witness_signed_request_not_found :
  queryPaymentsFromTopic (fun _ => 0) (take 2 Scenario.logA)
    (Some (mkFilters None None None (Some SIGNED) (Some 10))) 0 = [].
Proof.
  apply (query_for_signed_answers_nothing (fun _ => 0)
           (mkFilters None None None (Some SIGNED) (Some 10)) (take 2 Scenario.logA) 0).
  - reflexivity.
  - vm_compute. repeat constructor; intros data [= <-]; done.
Defined.

(** ** The order of the answer *)

Lemma notOlder_trans a b c : notOlder a b -> notOlder b c -> notOlder a c.
Proof.
  unfold notOlder.
  destruct (timestamp (fields a)), (timestamp (fields b)), (timestamp (fields c));
    try done. lia.
Qed.

Lemma insertSorted_sorted x l :
  hasTimestamp x -> Forall hasTimestamp l ->
  StronglySorted notOlder l -> StronglySorted notOlder (insertSorted x l).
Proof.
  intros [tx Hx] Hall Hsorted.
  induction Hsorted as [|y l Hsorted IH Hy]; simpl.
  { repeat constructor. }
  inversion Hall as [|? ? [ty Hty] Hall']; subst.
  destruct (compareFn x y <=? 0) eqn:Hcmp.
  - apply Z.leb_le in Hcmp. unfold compareFn in Hcmp. rewrite Hx, Hty in Hcmp.
    assert (Hxy : notOlder x y). { unfold notOlder. rewrite Hx, Hty. lia. }
    constructor; [by constructor|]. constructor; [done|].
    eapply Forall_impl; [exact Hy|]. intros z Hz. by eapply notOlder_trans.
  - apply Z.leb_gt in Hcmp. unfold compareFn in Hcmp. rewrite Hx, Hty in Hcmp.
    constructor; [by apply IH|].
    rewrite ReadPath.insertSorted_perm. constructor; [|done].
    unfold notOlder. rewrite Hx, Hty. lia.
Qed.

Lemma sortPayments_sorted l :
  Forall hasTimestamp l -> StronglySorted notOlder (sortPayments l).
Proof.
  induction l as [|x l IH]; intros Hall; simpl; [constructor|].
  inversion Hall as [|? ? Hx Hl]; subst.
  apply insertSorted_sorted; [done| |by apply IH].
  by rewrite ReadPath.sortPayments_perm.
Qed.

Lemma take_sorted k (l : list Payment) :
  StronglySorted notOlder l -> StronglySorted notOlder (take k l).
Proof.
  intros Hsorted. rewrite <- (take_drop k l) in Hsorted.
  by apply StronglySorted_app_1_l in Hsorted.
Qed.

Lemma markSigned_stamped data seq ps :
  Forall hasTimestamp ps -> Forall hasTimestamp (markSigned data seq ps).
Proof.
  intros Hall. apply Forall_forall. intros p [Hin|(q & Hq & ->)]%markSigned_inv.
  - by apply (proj1 (Forall_forall _ _) Hall).
  - by apply (proj1 (Forall_forall _ _) Hall q).
Qed.

Section Stamped.

Variable clock : nat -> Z.
Variable filters : option Filters.

Lemma allStamped_step st msg :
  stamped msg -> allStamped st -> allStamped (processMessage clock filters st msg).
Proof.
  intros Hmsg [Hrec Hupd].
  destruct (message msg) as [data|] eqn:Hm; [|by rewrite step_unparsed].
  specialize (Hmsg data Hm).
  destruct (isTerminal data) eqn:Ht.
  { rewrite (step_terminal _ _ _ _ _ Hm Ht). split; [done|]. simpl.
    intros id u. rewrite lookup_insert. case_decide; [by intros [= <-]|apply Hupd]. }
  destruct (isSigned data) eqn:Hs.
  { rewrite (step_signed _ _ _ _ _ Hm Hs). split; [|done]. by apply markSigned_stamped. }
  destruct (isRequest data) eqn:Hr; [|by rewrite (step_other _ _ _ _ _ Hm Ht Hs Hr)].
  rewrite (step_request _ _ _ _ _ Hm Hr).
  assert (Hnew : hasTimestamp (fst (checkExpiration clock (reads st) (materialize st msg data)))).
  { assert (Hmat : hasTimestamp (materialize st msg data)).
    { unfold materialize, hasTimestamp.
      destruct (statusUpdates st !! paymentRequestId data) as [u|] eqn:Hu; simpl; [|done].
      by apply (Hupd _ _ Hu). }
    unfold checkExpiration. destruct (truthyNum _); [|done]. by destruct (_ && _). }
  destruct (checkExpiration clock (reads st) (materialize st msg data)) as [p k].
  destruct (filteredOut filters p); (split; [|done]); simpl; [done|].
  apply Forall_app. split; [done|]. by repeat constructor.
Qed.

Lemma allStamped_run messages : forall st,
  Forall stamped messages -> allStamped st ->
  allStamped (runLoop clock filters st messages).
Proof.
  induction messages as [|msg messages IH]; intros st Hall Hst; [done|].
  inversion Hall as [|? ? Hmsg Hrest]; subst.
  rewrite runLoop_cons. by apply IH, allStamped_step.
Qed.

(** X9.  When every message of the log carries a timestamp, the answer is
    sorted newest first: no record stands before a record with a later
    timestamp, where the timestamp of a record that took a completion is the
    timestamp of that completion. *)
Theorem answer_is_sorted_newest_first messages reads0 :
  Forall stamped messages ->
  StronglySorted notOlder (queryPaymentsFromTopic clock messages filters reads0).
Proof.
  intros Hall.
  destruct (allStamped_run messages (initial reads0) Hall) as [Hrec _].
  { split; [constructor|]. intros id u. simpl. by rewrite lookup_empty. }
  pose proof (sortPayments_sorted _ Hrec) as Hsorted.
  unfold queryPaymentsFromTopic. destruct filters as [f|]; [|done].
  destruct (truthyNum (limitF f)); [|done].
  unfold slice0. destruct (0 <=? _); by apply take_sorted.
Qed.

End Stamped.

Lemma X9_witness_two_requests_sorted :
  StronglySorted notOlder
    (queryPaymentsFromTopic (fun _ => 0) Scenario.twoRequests None 0).
Proof.
  apply (answer_is_sorted_newest_first (fun _ => 0) None Scenario.twoRequests 0).
  repeat constructor; intros data [= <-]; by eexists.
Defined.

(** ** A signature that comes too early *)

Lemma markSigned_no_record data seq ps :
  Forall (fun p => paymentRequestId (fields p) <> paymentRequestId data) ps ->
  markSigned data seq ps = ps.
Proof.
  induction 1 as [|p ps Hp _ IH]; simpl; [done|].
  by rewrite (bool_decide_eq_false_2 _ Hp), IH.
Qed.

Section TooEarly.

Variable clock : nat -> Z.
Variable filters : option Filters.
Variable id : option string.

Lemma no_record_step st msg :
  refersTo isRequest id msg = false ->
  Forall (fun p => paymentRequestId (fields p) <> id) (payments st) ->
  Forall (fun p => paymentRequestId (fields p) <> id)
         (payments (processMessage clock filters st msg)).
Proof.
  unfold refersTo. intros Hmsg Hall.
  destruct (message msg) as [data|] eqn:Hm; [|by rewrite step_unparsed].
  destruct (isTerminal data) eqn:Ht.
  { by rewrite (step_terminal _ _ _ _ _ Hm Ht). }
  destruct (isSigned data) eqn:Hs.
  { rewrite (step_signed _ _ _ _ _ Hm Hs). simpl.
    apply Forall_forall. intros p [Hin|(q & Hq & ->)]%markSigned_inv.
    - by apply (proj1 (Forall_forall _ _) Hall).
    - by apply (proj1 (Forall_forall _ _) Hall q). }
  destruct (isRequest data) eqn:Hr; [|by rewrite (step_other _ _ _ _ _ Hm Ht Hs Hr)].
  rewrite (step_request _ _ _ _ _ Hm Hr).
  pose proof (ReadPath.checkExpiration_key clock (reads st) (materialize st msg data)) as Hk.
  rewrite ReadPath.materialize_key in Hk.
  destruct (checkExpiration clock (reads st) (materialize st msg data)) as [p k].
  destruct (filteredOut filters p); simpl; [done|].
  apply Forall_app. split; [done|]. constructor; [|constructor].
  simpl in Hk. injection Hk as Hid _. rewrite Hid.
  simpl in Hmsg. by apply bool_decide_eq_false in Hmsg.
Qed.

Lemma no_record_run messages : forall st,
  Forall (fun msg => refersTo isRequest id msg = false) messages ->
  Forall (fun p => paymentRequestId (fields p) <> id) (payments st) ->
  Forall (fun p => paymentRequestId (fields p) <> id)
         (payments (runLoop clock filters st messages)).
Proof.
  induction messages as [|msg messages IH]; intros st Hall Hst; [done|].
  inversion Hall as [|? ? Hmsg Hrest]; subst.
  rewrite runLoop_cons. by apply IH, no_record_step.
Qed.

End TooEarly.

(** X10.  A SIGNED message that is read before the REQUEST it refers to is
    dropped: when no REQUEST for its id precedes it, the answer is the one of
    the log without the signature, and the request that follows stays as it
    was posted. *)
Theorem early_signature_is_dropped
    (clock : nat -> Z) (filters : option Filters) (reads0 : nat)
    (pre post : list TopicMessage) (msg : TopicMessage) (data : Data) :
  message msg = Some data -> isSigned data = true ->
  Forall (fun m => refersTo isRequest (paymentRequestId data) m = false) pre ->
  queryPaymentsFromTopic clock (pre ++ msg :: post) filters reads0
    = queryPaymentsFromTopic clock (pre ++ post) filters reads0.
Proof.
  intros Hm Hs Hpre. apply query_of_payments.
  rewrite !runLoop_app, runLoop_cons. f_equal. f_equal.
  rewrite (step_signed _ _ _ _ _ Hm Hs).
  rewrite markSigned_no_record.
  - by destruct (runLoop clock filters (initial reads0) pre).
  - by apply no_record_run.
Qed.

Lemma X10_witness_signature_before_request :
  queryPaymentsFromTopic (fun _ => 0)
      ([] ++ Scenario.entry 1
               (Scenario.signedOf Scenario.idA
                  (Scenario.requestOf Scenario.idA 10 Scenario.farFuture) 20 2)
          :: [Scenario.entry 2 (Scenario.requestOf Scenario.idA 10 Scenario.farFuture)])
      None 0
    = queryPaymentsFromTopic (fun _ => 0)
        ([] ++ [Scenario.entry 2 (Scenario.requestOf Scenario.idA 10 Scenario.farFuture)])
        None 0.
Proof.
  apply (early_signature_is_dropped (fun _ => 0) None 0 []
           [Scenario.entry 2 (Scenario.requestOf Scenario.idA 10 Scenario.farFuture)]
           (Scenario.entry 1
              (Scenario.signedOf Scenario.idA
                 (Scenario.requestOf Scenario.idA 10 Scenario.farFuture) 20 2))
           (Scenario.signedOf Scenario.idA
              (Scenario.requestOf Scenario.idA 10 Scenario.farFuture) 20 2)).
  - reflexivity.
  - reflexivity.
  - constructor.
Defined.

(** ** Several records with one id *)

(** X27.  A SIGNED message marks one record only, the first pushed with its
    id: that record becomes "signed" and notes the timestamp and the
    sequence number of the signature; the records before it, which have other
    ids, and all records after it, also those with the same id, stay as they
    are. *)
Theorem signature_marks_the_first_record_only
    (clock : nat -> Z) (filters : option Filters) (st : State)
    (msg : TopicMessage) (data : Data) (before after : list Payment) (p : Payment) :
  message msg = Some data -> isSigned data = true ->
  payments st = before ++ p :: after ->
  Forall (fun q => paymentRequestId (fields q) <> paymentRequestId data) before ->
  paymentRequestId (fields p) = paymentRequestId data ->
  payments (processMessage clock filters st msg)
    = before
        ++ mkPayment (setStatus (Some "signed") (fields p)) (sequenceNumber p)
             (consensusTimestamp p) (timestamp data) (Some (sequence_number msg))
        :: after.
Proof.
  intros Hm Hs Hps Hbefore Hp.
  rewrite (step_signed _ _ _ _ _ Hm Hs). simpl. rewrite Hps. clear Hps.
  induction Hbefore as [|q before Hq _ IH]; simpl.
  - by rewrite (bool_decide_eq_true_2 _ Hp).
  - by rewrite (bool_decide_eq_false_2 _ Hq), IH.
Qed.

Lemma X27_witness_request_posted_twice_then_signed :
  payments
    (processMessage (fun _ => 0) None
       (runLoop (fun _ => 0) None (initial 0) Scenario.twoRequests)
       (Scenario.entry 3
          (Scenario.signedOf Scenario.idA
             (Scenario.requestOf Scenario.idA 1700000000010 Scenario.farFuture)
             1700000000030 1)))
  = [] ++ mkPayment
            (setStatus (Some "signed"%string)
               (Scenario.requestOf Scenario.idA 1700000000010 Scenario.farFuture))
            1 "1" (Some 1700000000030) (Some 3)
       :: [mkPayment (Scenario.requestOf Scenario.idA 1700000000020 Scenario.farFuture)
             2 "2" None None].
Proof.
  apply (signature_marks_the_first_record_only (fun _ => 0) None
           (runLoop (fun _ => 0) None (initial 0) Scenario.twoRequests)
           (Scenario.entry 3
              (Scenario.signedOf Scenario.idA
                 (Scenario.requestOf Scenario.idA 1700000000010 Scenario.farFuture)
                 1700000000030 1))
           (Scenario.signedOf Scenario.idA
              (Scenario.requestOf Scenario.idA 1700000000010 Scenario.farFuture)
              1700000000030 1)
           []
           [mkPayment (Scenario.requestOf Scenario.idA 1700000000020 Scenario.farFuture)
              2 "2" None None]
           (mkPayment (Scenario.requestOf Scenario.idA 1700000000010 Scenario.farFuture)
              1 "1" None None)).
  - reflexivity.
  - reflexivity.
  - vm_compute. reflexivity.
  - constructor.
  - reflexivity.
Defined.

End QueryLaws.

(** * Request ids: length and the 24 bytes that count *)

Module IdLaws.

Import Id IdFacts.

Local Open Scope list_scope.

Lemma groups_of_three (P : list N -> Prop) :
  P [] -> (forall a, P [a]) -> (forall a b, P [a; b]) ->
  (forall a b c l, P l -> P (a :: b :: c :: l)) ->
  forall l, P l.
Proof.
  intros H0 H1 H2 H3 l.
  assert (Hall : P l /\ (forall a, P (a :: l)) /\ (forall a b, P (a :: b :: l))).
  { induction l as [|x l (IH0 & IH1 & IH2)]; [by repeat split|].
    repeat split; [apply IH1|intros a; apply IH2|]. intros a b. by apply H3. }
  by destruct Hall.
Qed.

Lemma base64_length (l : list N) :
  String.length (base64 l) = (4 * ((List.length l + 2) / 3))%nat.
Proof.
  induction l as [|a|a b|a b c l IH] using groups_of_three; try reflexivity.
  cbn [base64 String.length List.length]. rewrite IH.
  replace (S (S (S (List.length l))) + 2)%nat with (1 * 3 + (List.length l + 2))%nat by lia.
  rewrite Nat.div_add_l by lia. lia.
Qed.

Lemma substring_length (m : nat) : forall s : string,
  String.length (substring 0 m s) = Nat.min m (String.length s).
Proof.
  induction m as [|m IH]; intros [|c s]; simpl; try done.
  by rewrite IH.
Qed.

Lemma substring_all (m : nat) : forall s : string,
  (String.length s <= m)%nat -> substring 0 m s = s.
Proof.
  induction m as [|m IH]; intros [|c s] Hlen; simpl in *; try done; [lia|].
  rewrite IH; [done|lia].
Qed.

Lemma idText_length sender recipient (nonce : Z) :
  String.length (idText sender recipient nonce)
    = (String.length sender + String.length recipient + 2
         + String.length (pretty nonce))%nat.
Proof. unfold idText. rewrite !append_length. simpl. lia. Qed.

(** X11.  The id is the base64 text of the string that line 647 builds, cut
    to 32 characters: whatever that string is, and so in whichever form the
    nonce has been printed, the id has four characters for every three bytes
    of it, started or complete, and never more than 32.  For a sender, a
    recipient and a nonce printed in decimal the string has the two hyphens
    and the three parts, and the id of the create tool is the id of that
    string. *)
Theorem id_length (data sender recipient : string) (nonce : Z) :
  String.length (idOfText data)
    = Nat.min 32 (4 * ((String.length data + 2) / 3))
  /\ String.length (idText sender recipient nonce)
     = (String.length sender + String.length recipient + 2
          + String.length (pretty nonce))%nat
  /\ generatePaymentRequestId sender recipient nonce
     = idOfText (idText sender recipient nonce).
Proof.
  split; [|split; [apply idText_length|reflexivity]].
  unfold idOfText. by rewrite substring_length, base64_length, bufferFrom_length.
Qed.

(** ** Ids that keep the whole text *)

Lemma digitValue_digit n : (n < 64)%N -> digitValue (digit n) = n.
Proof.
  intros Hn.
  assert (Hall : forallb (fun k => (digitValue (digit (N.of_nat k)) =? N.of_nat k)%N)
                   (seq 0 64) = true)
    by (vm_compute; reflexivity).
  rewrite forallb_forall in Hall.
  specialize (Hall (N.to_nat n)). rewrite N2Nat.id in Hall.
  apply N.eqb_eq, Hall, in_seq. lia.
Qed.

Lemma digit_inj n m : (n < 64)%N -> (m < 64)%N -> digit n = digit m -> n = m.
Proof.
  intros Hn Hm Heq. rewrite <- (digitValue_digit n Hn), <- (digitValue_digit m Hm).
  by rewrite Heq.
Qed.

Lemma digit_not_padding n : (n < 64)%N -> digit n <> "="%char.
Proof.
  intros Hn Heq. pose proof (digitValue_digit n Hn) as Hv. rewrite Heq in Hv.
  vm_compute in Hv. subst n. done.
Qed.

Ltac split_byte a k :=
  let q := fresh "q" in
  let r := fresh "r" in
  pose proof (N.div_mod' a k);
  pose proof (N.mod_lt a k ltac:(lia));
  set (q := (a / k)%N) in *; set (r := (a mod k)%N) in *; clearbody q r.

Ltac byte_facts :=
  repeat match goal with
         | |- context [(?a / ?k)%N] => split_byte a k
         | H : context [(?a / ?k)%N] |- _ => split_byte a k
         | |- context [(?a mod ?k)%N] => split_byte a k
         | H : context [(?a mod ?k)%N] |- _ => split_byte a k
         end.

(** The encoding loses nothing: two byte sequences with the same base64
    text are the same. *)
Lemma base64_inj (l1 : list N) : forall l2,
  Forall isByte l1 -> Forall isByte l2 -> base64 l1 = base64 l2 -> l1 = l2.
Proof.
  unfold isByte.
  induction l1 as [|a|a b|a b c l1 IH] using groups_of_three;
    intros [|a' [|b' [|c' l2]]] H1 H2 Heq;
    repeat match goal with
           | H : Forall _ (_ :: _) |- _ => apply Forall_cons_1 in H as [? H]
           end;
    cbn [base64] in Heq; try discriminate Heq; try done.
  all: injection Heq; clear Heq; intros.
  all: repeat match goal with
         | H : digit _ = "="%char |- _ => apply digit_not_padding in H; [done|]
         | H : "="%char = digit _ |- _ =>
             symmetry in H; apply digit_not_padding in H; [done|]
         end.
  all: repeat match goal with
         | H : digit _ = digit _ |- _ =>
             apply digit_inj in H; [|clear H; byte_facts; lia ..]
         end.
  all: try (byte_facts; lia).
  - assert (a = a') as -> by (byte_facts; lia). done.
  - assert (a = a') as -> by (byte_facts; lia).
    assert (b = b') as -> by (byte_facts; lia). done.
  - assert (a = a') as -> by (byte_facts; lia).
    assert (b = b') as -> by (byte_facts; lia).
    assert (c = c') as -> by (byte_facts; lia).
    do 3 f_equal. by apply IH.
Qed.

Lemma bufferFrom_bytes (s : string) : Forall isByte (bufferFrom s).
Proof.
  unfold bufferFrom. apply Forall_forall. intros n Hn.
  apply list_elem_of_In, in_map_iff in Hn as (c & <- & _). apply N_ascii_bounded.
Qed.

Lemma bufferFrom_inj (s1 s2 : string) : bufferFrom s1 = bufferFrom s2 -> s1 = s2.
Proof.
  unfold bufferFrom. intros Heq.
  rewrite <- (string_of_list_ascii_of_string s1), <- (string_of_list_ascii_of_string s2).
  f_equal. revert Heq.
  generalize (list_ascii_of_string s1) (list_ascii_of_string s2).
  induction l as [|c l IH]; intros [|d l'] Heq; simpl in Heq; try done.
  injection Heq as Hc Hl. f_equal; [|by apply IH].
  by rewrite <- (ascii_N_embedding c), <- (ascii_N_embedding d), Hc.
Qed.

Lemma append_cancel (s x y : string) : (s ++ x)%string = (s ++ y)%string -> x = y.
Proof.
  induction s as [|c s IH]; [done|]. rewrite !append_cons. intros [= Heq]. by apply IH.
Qed.

Lemma whole_text_is_kept (text : string) :
  (String.length text <= 24)%nat ->
  substring 0 32 (base64 (bufferFrom text)) = base64 (bufferFrom text).
Proof.
  intros Hlen. apply substring_all. rewrite base64_length, bufferFrom_length.
  assert ((String.length text + 2) / 3 <= 8)%nat; [|lia].
  change 8%nat with (26 / 3)%nat. apply Nat.Div0.div_le_mono. lia.
Qed.

(** X12.  As long as the text [sender-recipient-nonce] has at most 24 bytes
    the id keeps all of it: for one sender and one recipient, two different
    nonces then give two different ids. *)
Theorem short_ids_tell_nonces_apart (sender recipient : string) (n1 n2 : Z) :
  (String.length sender + String.length recipient + 2
     + String.length (pretty n1) <= 24)%nat ->
  (String.length sender + String.length recipient + 2
     + String.length (pretty n2) <= 24)%nat ->
  n1 <> n2 ->
  generatePaymentRequestId sender recipient n1
    <> generatePaymentRequestId sender recipient n2.
Proof.
  intros Hlen1 Hlen2 Hne. unfold generatePaymentRequestId.
  fold (idText sender recipient n1). fold (idText sender recipient n2).
  rewrite !whole_text_is_kept by (rewrite idText_length; lia).
  intros Heq%base64_inj; [|apply bufferFrom_bytes..].
  apply bufferFrom_inj in Heq. unfold idText in Heq.
  do 4 apply append_cancel in Heq. by apply pretty_Z_inj in Heq.
Qed.

Lemma X12_witness_nonces_7_and_8 :
  generatePaymentRequestId "0.0.1001" "0.0.2002" 7
    <> generatePaymentRequestId "0.0.1001" "0.0.2002" 8.
Proof.
  apply (short_ids_tell_nonces_apart "0.0.1001" "0.0.2002" 7 8);
    vm_compute; lia.
Defined.

(** The collision of X13 at two accounts of eleven characters. *)
Lemma X13_witness_accounts_of_eleven_characters :
  generatePaymentRequestId "0.0.1234567" "0.0.7654321" 1
    = generatePaymentRequestId "0.0.1234567" "0.0.7654321" 2.
Proof.
  apply (long_accounts_share_one_id "0.0.1234567" "0.0.7654321" 1 2).
  simpl. lia.
Defined.

End IdLaws.

(** * The write path: what each tool writes, and when it writes nothing *)

Module ToolLaws.

Import Tools WritePathFacts.

Local Open Scope list_scope.

Lemma X14_witness_sponsor_cannot_sign :
  exists reason w',
    signGaslessPayment (net := Scenario.network) Scenario.sponsorS Scenario.context
        Scenario.signA (Scenario.created None)
      = (ToolError reason, w')
    /\ topics w' = topics (Scenario.created None).
Proof.
  apply (sign_refused_to_foreign_sender (net := Scenario.network) Scenario.sponsorS
           Scenario.context Scenario.signA (Scenario.created None)).
  intros paymentRequest Hget. vm_compute in Hget. by injection Hget as <-.
Defined.

Lemma X15_witness_signing_too_late :
  exists reason w',
    signGaslessPayment (net := Scenario.lateNetwork) Scenario.payer Scenario.context
        Scenario.signA (Scenario.created None)
      = (ToolError reason, w')
    /\ topics w' = topics (Scenario.created None).
Proof.
  apply (sign_refused_after_expiration (net := Scenario.lateNetwork) Scenario.payer
           Scenario.context Scenario.signA (Scenario.created None)).
  intros paymentRequest Hget. vm_compute in Hget. injection Hget as <-.
  exists 1700003600000. vm_compute. repeat split; congruence.
Defined.

(** ** What a successful signature writes *)

Section SignEffects.

Context {net : Network}.

Lemma submitTopicMessage_effect topicId data w seq w' :
  submitTopicMessage topicId data w = (Returned seq, w') ->
  seq = Z.of_nat (List.length (topicLog w topicId)) + 1
  /\ topicLog w' topicId
      = topicLog w topicId ++ [mkTopicMessage seq (consensusStamp seq) (Some data)]
  /\ (forall t, t <> topicId -> topicLog w' t = topicLog w t)
  /\ ledger w' = ledger w.
Proof.
  unfold submitTopicMessage. intros [= <- <-]. repeat split.
  - unfold topicLog at 1. simpl. by rewrite lookup_insert_eq.
  - intros t Ht. unfold topicLog at 1. simpl. by rewrite lookup_insert_ne.
Qed.

Lemma validatePaymentRequest_frame paymentRequest client id w outcome w' :
  validatePaymentRequest paymentRequest client id w = (outcome, w') ->
  topics w' = topics w /\ ledger w' = ledger w.
Proof.
  unfold validatePaymentRequest, bind, dateNow, ret, throw.
  intros Hrun. repeat (case_match; simplify_eq/=); done.
Qed.

Lemma signTransaction_returned bytes key w signedBytes w' :
  signTransaction bytes key w = (Returned signedBytes, w') ->
  w' = w /\ exists b, bytes = Some b /\ signBytes b key = Some signedBytes.
Proof.
  unfold signTransaction, fromOption, ret, throw.
  destruct bytes as [b|]; [|done].
  destruct (signBytes b key) as [sb|] eqn:Hsign; intros; simplify_eq.
  split; [done|]. by exists b.
Qed.

(** What the lookup of the sign tool returns is the payload of the REQUEST
    message that [messages.find] gives for the sequence number. *)
Lemma getPaymentRequestFromTopic_found topicId seq context w paymentRequest w' :
  getPaymentRequestFromTopic topicId seq context w = (Returned paymentRequest, w') ->
  exists requestEntry,
    messageAt (topicLog w topicId) seq = Some requestEntry
    /\ message requestEntry = Some paymentRequest
    /\ type_ paymentRequest = Some "gasless_payment_request"%string.
Proof.
  unfold getPaymentRequestFromTopic, rethrow, bind, getTopicMessages, ret, throw,
    messageAt.
  destruct (mirrornodeService context); [|done]. cbn [negb].
  destruct (List.find _ (topicLog w topicId)) as [requestEntry|]; [|done].
  destruct (message requestEntry) as [data|] eqn:Hm; [|done].
  destruct (hasType data "gasless_payment_request") eqn:Htype; [|done].
  cbn [negb]. intros [= <- <-]. exists requestEntry.
  split; [done|]. split; [done|]. by apply bool_decide_eq_true in Htype.
Qed.

(** The steps behind a successful signature. *)
Lemma sign_posts client context params w response w' :
  signGaslessPayment client context params w = (ToolOk response, w') ->
  exists paymentRequest requestBytes signedBytes now,
    getPaymentRequestFromTopic (SignParams.topicId params)
        (SignParams.sequenceNumber params) context w
      = (Returned paymentRequest, w)
    /\ transactionBytes paymentRequest = Some requestBytes
    /\ signBytes requestBytes (operatorPrivateKey client) = Some signedBytes
    /\ sender paymentRequest = operatorAccountId client
    /\ signed_sequenceNumber response
       = Z.of_nat (List.length (topicLog w (SignParams.topicId params))) + 1
    /\ topicLog w' (SignParams.topicId params)
       = topicLog w (SignParams.topicId params)
           ++ [mkTopicMessage (signed_sequenceNumber response)
                 (consensusStamp (signed_sequenceNumber response))
                 (Some (signedPaymentMessage paymentRequest
                          (SignParams.paymentRequestId params) now signedBytes
                          (SignParams.sequenceNumber params)))]
    /\ (forall t, t <> SignParams.topicId params -> topicLog w' t = topicLog w t)
    /\ ledger w' = ledger w.
Proof.
  intros Hrun. apply tool_ok in Hrun.
  apply bind_returned in Hrun as (paymentRequest & w1 & Hget & Hrun).
  pose proof (getPaymentRequestFromTopic_world _ _ _ _ _ _ Hget) as ->.
  apply bind_returned in Hrun as (u & w2 & Hvalid & Hrun).
  pose proof (validatePaymentRequest_returned _ _ _ _ _ _ Hvalid)
    as (_ & Hsender & _).
  apply validatePaymentRequest_frame in Hvalid as [Htopics Hledger].
  apply bind_returned in Hrun as (signedBytes & w3 & Hsign & Hrun).
  apply signTransaction_returned in Hsign as (-> & requestBytes & Hbytes & Hsign).
  apply bind_returned in Hrun as (now & w4 & Hnow & Hrun).
  unfold dateNow in Hnow. injection Hnow as <- <-.
  apply bind_returned in Hrun as (seq & w5 & Hsubmit & Hret).
  unfold ret in Hret. injection Hret as <- <-.
  apply submitTopicMessage_effect in Hsubmit as (Hseq & Hlog & Hother & Hled).
  unfold topicLog in *. cbn [topics ledger signed_sequenceNumber] in *.
  rewrite Htopics in *.
  exists paymentRequest, requestBytes, signedBytes, (clock (ticks w2)).
  split; [exact Hget|]. repeat split; try done. congruence.
Qed.

(** X16.  A successful signature appends exactly one message to the topic it
    was asked for, under the next sequence number, which it returns.  The
    message is a SIGNED message for the id of the call that points back to the
    sequence number of the request.  Its signed bytes are the transaction
    bytes of the REQUEST message found at that sequence number, signed with
    the caller's key; it names the caller, who is the sender of that request,
    as sender, and repeats the recipient, the payment type, the amount and
    the fee cap of that request.  No other topic and no transaction on the
    ledger is touched. *)
Theorem sign_appends_one_signed_message
    (client : Client) (context : Context) (params : SignParams.t)
    (w w' : World) (response : SignResponse) :
  signGaslessPayment client context params w = (ToolOk response, w') ->
  exists requestEntry paymentRequest requestBytes signedBytes entry signedMessage,
    messageAt (topicLog w (SignParams.topicId params)) (SignParams.sequenceNumber params)
      = Some requestEntry
    /\ message requestEntry = Some paymentRequest
    /\ type_ paymentRequest = Some "gasless_payment_request"%string
    /\ transactionBytes paymentRequest = Some requestBytes
    /\ signBytes requestBytes (operatorPrivateKey client) = Some signedBytes
    /\ topicLog w' (SignParams.topicId params)
       = topicLog w (SignParams.topicId params) ++ [entry]
    /\ sequence_number entry = signed_sequenceNumber response
    /\ signed_sequenceNumber response
       = Z.of_nat (List.length (topicLog w (SignParams.topicId params))) + 1
    /\ message entry = Some signedMessage
    /\ type_ signedMessage = Some "gasless_payment_signed"%string
    /\ status signedMessage = Some "signed"%string
    /\ paymentRequestId signedMessage = Some (SignParams.paymentRequestId params)
    /\ originalSequenceNumber signedMessage = Some (SignParams.sequenceNumber params)
    /\ signedTransactionBytes signedMessage = Some signedBytes
    /\ sender signedMessage = operatorAccountId client
    /\ sender signedMessage = sender paymentRequest
    /\ recipientAccountId signedMessage = recipientAccountId paymentRequest
    /\ paymentType signedMessage = paymentType paymentRequest
    /\ amount signedMessage = amount paymentRequest
    /\ maxFee signedMessage = maxFee paymentRequest
    /\ (forall t, t <> SignParams.topicId params -> topicLog w' t = topicLog w t)
    /\ ledger w' = ledger w.
Proof.
  intros Hrun.
  apply sign_posts in Hrun
    as (paymentRequest & requestBytes & signedBytes & now
        & Hget & Hbytes & Hsign & Hsender & Hseq & Hlog & Hother & Hledger).
  apply getPaymentRequestFromTopic_found in Hget as (requestEntry & Hfind & Hm & Htype).
  eexists requestEntry, paymentRequest, requestBytes, signedBytes, _, _.
  split; [exact Hfind|]. split; [exact Hm|]. split; [exact Htype|].
  split; [exact Hbytes|]. split; [exact Hsign|].
  split; [exact Hlog|]. cbn. by repeat split.
Qed.

End SignEffects.

Lemma X16_witness_first_signature :
  exists requestEntry paymentRequest requestBytes signedBytes entry signedMessage,
    messageAt (topicLog (Scenario.created None) Scenario.topic) 1 = Some requestEntry
    /\ message requestEntry = Some paymentRequest
    /\ type_ paymentRequest = Some "gasless_payment_request"%string
    /\ transactionBytes paymentRequest = Some requestBytes
    /\ signBytes (Network := Scenario.network) requestBytes (Some "key-U"%string)
       = Some signedBytes
    /\ topicLog (Scenario.signed None) Scenario.topic
       = topicLog (Scenario.created None) Scenario.topic ++ [entry]
    /\ sequence_number entry = 2
    /\ 2 = Z.of_nat (List.length (topicLog (Scenario.created None) Scenario.topic)) + 1
    /\ message entry = Some signedMessage
    /\ type_ signedMessage = Some "gasless_payment_signed"%string
    /\ status signedMessage = Some "signed"%string
    /\ paymentRequestId signedMessage = Some Scenario.idA
    /\ originalSequenceNumber signedMessage = Some 1
    /\ signedTransactionBytes signedMessage = Some signedBytes
    /\ sender signedMessage = Some "0.0.1001"%string
    /\ sender signedMessage = sender paymentRequest
    /\ recipientAccountId signedMessage = recipientAccountId paymentRequest
    /\ paymentType signedMessage = paymentType paymentRequest
    /\ amount signedMessage = amount paymentRequest
    /\ maxFee signedMessage = maxFee paymentRequest
    /\ (forall t, t <> Scenario.topic ->
          topicLog (Scenario.signed None) t = topicLog (Scenario.created None) t)
    /\ ledger (Scenario.signed None) = ledger (Scenario.created None).
Proof.
  apply (sign_appends_one_signed_message (net := Scenario.network) Scenario.payer
           Scenario.context Scenario.signA (Scenario.created None) (Scenario.signed None)
           (mkSignResponse Scenario.idA Scenario.topic 2)).
  vm_compute. reflexivity.
Defined.

(** ** Relaying *)

Section RelayEffects.

Context {net : Network}.

Lemma getSignedPaymentFromTopic_world topicId seq context w outcome w' :
  getSignedPaymentFromTopic topicId seq context w = (outcome, w') -> w' = w.
Proof.
  unfold getSignedPaymentFromTopic, rethrow, bind, getTopicMessages, ret, throw.
  intros Hrun. repeat (case_match; simplify_eq/=); done.
Qed.

Lemma validateSignedPayment_world signedPayment w outcome w' :
  validateSignedPayment signedPayment w = (outcome, w') -> w' = w.
Proof.
  unfold validateSignedPayment, ret, throw.
  intros Hrun. repeat (case_match; simplify_eq/=); done.
Qed.

Lemma validateSponsorAuthorization_world signedPayment client w outcome w' :
  validateSponsorAuthorization signedPayment client w = (outcome, w') -> w' = w.
Proof.
  unfold validateSponsorAuthorization, ret, throw.
  intros Hrun. repeat (case_match; simplify_eq/=); done.
Qed.

(** X17.  A SIGNED message that names a sponsor is relayed by that sponsor
    only: for every other operator the relay tool answers an error, and
    neither the ledger nor any topic nor the clock has been touched. *)
Theorem relay_refused_to_another_sponsor
    (client : Client) (context : Context) (params : RelayParams.t)
    (w : World) (signedPayment : Data) :
  getSignedPaymentFromTopic (RelayParams.topicId params)
      (RelayParams.sequenceNumber params) context w
    = (Returned signedPayment, w) ->
  truthyStr (sponsorAccountId signedPayment) = true ->
  sponsorAccountId signedPayment <> operatorAccountId client ->
  exists reason, relayGaslessPayment client context params w = (ToolError reason, w).
Proof.
  intros Hget Hpinned Hother.
  unfold relayGaslessPayment, tool, bind. rewrite Hget.
  destruct (validateSignedPayment signedPayment w) as [[u|reason] w1] eqn:Hvalid;
    pose proof (validateSignedPayment_world _ _ _ _ Hvalid) as ->; [|by eexists].
  destruct (validateSponsorAuthorization_rejects signedPayment client w Hpinned Hother)
    as [reason ->].
  by eexists.
Qed.

(** X18.  The relay tool refuses a sequence number that does not hold a
    SIGNED message, such as the one of the request itself, and says which
    type it found; nothing has been touched. *)
Theorem relay_refuses_other_messages
    (client : Client) (context : Context) (params : RelayParams.t)
    (w : World) (msg : TopicMessage) (data : Data) :
  mirrornodeService context = true ->
  messageAt (topicLog w (RelayParams.topicId params)) (RelayParams.sequenceNumber params)
    = Some msg ->
  message msg = Some data ->
  hasType data "gasless_payment_signed" = false ->
  relayGaslessPayment client context params w
    = (ToolError
         ("Failed to relay gasless payment: Failed to retrieve signed payment: "
            ++ "Message is not a signed payment (type: " ++ show (type_ data) ++ ")")%string,
       w).
Proof.
  intros Hmirror Hfind Hmsg Htype.
  unfold relayGaslessPayment, tool, bind, getSignedPaymentFromTopic, rethrow, bind,
    getTopicMessages.
  rewrite Hmirror. simpl. unfold messageAt in Hfind. rewrite Hfind, Hmsg, Htype.
  reflexivity.
Qed.

(** X19.  A successful relay submits one transaction to the ledger, the
    SIGNED payload signed once more with the sponsor's key, and appends one
    COMPLETED message for the id of the SIGNED message to the same topic.  The
    message names the operator as sponsor, reports the gas paid as 0.01
    whatever the ledger charged, and repeats the sponsor fee of the call, 0
    when none was given. *)
Theorem relay_executes_once_and_reports
    (client : Client) (context : Context) (params : RelayParams.t)
    (w w' : World) (response : RelayResponse) :
  relayGaslessPayment client context params w = (ToolOk response, w') ->
  exists signedPayment payload fullySigned entry completion,
    getSignedPaymentFromTopic (RelayParams.topicId params)
        (RelayParams.sequenceNumber params) context w
      = (Returned signedPayment, w)
    /\ signedTransactionBytes signedPayment = Some payload
    /\ signBytes payload (operatorPrivateKey client) = Some fullySigned
    /\ executeBytes (ledger w) fullySigned = Some (relayed_transactionId response)
    /\ ledger w' = ledger w ++ [fullySigned]
    /\ topicLog w' (RelayParams.topicId params)
       = topicLog w (RelayParams.topicId params) ++ [entry]
    /\ message entry = Some completion
    /\ type_ completion = Some "gasless_payment_completed"%string
    /\ paymentRequestId completion = paymentRequestId signedPayment
    /\ sponsor completion = operatorAccountId client
    /\ transactionId completion = Some (relayed_transactionId response)
    /\ gasPaid completion = Some 0.01%Q
    /\ sponsorFee completion = Some (default 0%Q (RelayParams.sponsorFee params))
    /\ relayed_sponsorFee response = default 0%Q (RelayParams.sponsorFee params).
Proof.
  intros Hrun. apply tool_ok in Hrun.
  apply bind_returned in Hrun as (signedPayment & w1 & Hget & Hrun).
  pose proof (getSignedPaymentFromTopic_world _ _ _ _ _ _ Hget) as ->.
  apply bind_returned in Hrun as (u1 & w2 & Hvalid & Hrun).
  apply validateSignedPayment_world in Hvalid as ->.
  apply bind_returned in Hrun as (u2 & w3 & Hauth & Hrun).
  apply validateSponsorAuthorization_world in Hauth as ->.
  apply bind_returned in Hrun as (fullySigned & w4 & Hsign & Hrun).
  apply signTransaction_returned in Hsign as (-> & payload & Hpayload & Hsign).
  apply bind_returned in Hrun as (txid & w5 & Hexec & Hrun).
  unfold executeTransaction in Hexec.
  destruct (executeBytes (ledger w) fullySigned) as [txid'|] eqn:Hledger; [|done].
  injection Hexec as <- <-.
  apply bind_returned in Hrun as (u3 & w6 & Hmark & Hret).
  unfold ret in Hret. injection Hret as <- <-.
  unfold markPaymentAsCompleted in Hmark.
  apply bind_returned in Hmark as (now & w7 & Hnow & Hmark).
  unfold dateNow in Hnow. injection Hnow as <- <-.
  apply bind_returned in Hmark as (seq & w8 & Hsubmit & Hret).
  unfold ret in Hret. injection Hret as _ <-.
  apply submitTopicMessage_effect in Hsubmit as (_ & Hlog & _ & Hled).
  unfold topicLog in *. cbn [topics ledger] in *.
  eexists signedPayment, payload, fullySigned, _, _.
  split; [done|]. split; [done|]. split; [done|]. split; [done|]. split; [done|].
  split; [exact Hlog|]. cbn. by repeat split.
Qed.

End RelayEffects.

Lemma X17_witness_pinned_message_and_stranger :
  exists reason,
    relayGaslessPayment (net := Scenario.network) Scenario.sponsorS' Scenario.context
        (RelayParams.mk Scenario.topic 1 None) Scenario.pinnedWorld
      = (ToolError reason, Scenario.pinnedWorld).
Proof.
  apply (relay_refused_to_another_sponsor (net := Scenario.network) Scenario.sponsorS'
           Scenario.context (RelayParams.mk Scenario.topic 1 None) Scenario.pinnedWorld
           Scenario.pinnedSigned).
  - vm_compute. reflexivity.
  - reflexivity.
  - vm_compute. congruence.
Defined.

Lemma X18_witness_relaying_the_request :
  relayGaslessPayment (net := Scenario.network) Scenario.sponsorS Scenario.context
      (RelayParams.mk Scenario.topic 1 None) (Scenario.signed None)
    = (ToolError
         ("Failed to relay gasless payment: Failed to retrieve signed payment: "
            ++ "Message is not a signed payment (type: gasless_payment_request)")%string,
       Scenario.signed None).
Proof.
  apply (relay_refuses_other_messages (net := Scenario.network) Scenario.sponsorS
           Scenario.context (RelayParams.mk Scenario.topic 1 None) (Scenario.signed None)
           (mkTopicMessage 1 "1"
              (Some (Scenario.requestOf Scenario.idA 1700000000001 1700003600000)))
           (Scenario.requestOf Scenario.idA 1700000000001 1700003600000)).
  - reflexivity.
  - vm_compute. reflexivity.
  - reflexivity.
  - reflexivity.
Defined.

Lemma X19_witness_relay_by_the_sponsor :
  exists signedPayment payload fullySigned entry completion,
    getSignedPaymentFromTopic Scenario.topic 2 Scenario.context
        (Scenario.signed None)
      = (Returned signedPayment, Scenario.signed None)
    /\ signedTransactionBytes signedPayment = Some payload
    /\ signBytes (Network := Scenario.network) payload (Some "key-S"%string)
       = Some fullySigned
    /\ executeBytes (Network := Scenario.network) (ledger (Scenario.signed None))
         fullySigned
       = Some "transaction-0"%string
    /\ ledger (Scenario.relayed None Scenario.sponsorS)
       = ledger (Scenario.signed None) ++ [fullySigned]
    /\ topicLog (Scenario.relayed None Scenario.sponsorS) Scenario.topic
       = topicLog (Scenario.signed None) Scenario.topic ++ [entry]
    /\ message entry = Some completion
    /\ type_ completion = Some "gasless_payment_completed"%string
    /\ paymentRequestId completion = paymentRequestId signedPayment
    /\ sponsor completion = Some "0.0.3003"%string
    /\ transactionId completion = Some "transaction-0"%string
    /\ gasPaid completion = Some 0.01%Q
    /\ sponsorFee completion = Some 0.01%Q
    /\ 0.01%Q = 0.01%Q.
Proof.
  apply (relay_executes_once_and_reports (net := Scenario.network) Scenario.sponsorS
           Scenario.context Scenario.relayA (Scenario.signed None)
           (Scenario.relayed None Scenario.sponsorS)
           (mkRelayResponse "transaction-0" (Some Scenario.idA) (Some "0.0.3003")
              0.01%Q 0.01%Q)).
  vm_compute. reflexivity.
Defined.

(** ** Creating *)

Section CreateEffects.

Context {net : Network}.

Lemma orNow_returns value extra w :
  exists a w',
    orNow value extra w = (Returned a, w')
    /\ topics w' = topics w /\ ledger w' = ledger w
    /\ env_P2P_GASLESS_TOPIC_ID w' = env_P2P_GASLESS_TOPIC_ID w
    /\ (truthyNum value = true -> value = Some a /\ w' = w)
    /\ (truthyNum value = false -> a = clock (ticks w) + extra /\ w' = afterReading w).
Proof.
  unfold orNow, bind, dateNow, ret, truthyNum, afterReading.
  destruct value as [v|]; [destruct (v =? 0) eqn:Hv|]; simpl;
    eexists _, _; repeat split; try done.
Qed.

Lemma keepsTopics_orNow value extra : keepsTopics (orNow value extra).
Proof.
  intros w. destruct (orNow_returns value extra w) as (a & w' & -> & Htopics & _).
  done.
Qed.

Lemma keepsTopics_validatePaymentParams params : keepsTopics (validatePaymentParams params).
Proof.
  intros w. destruct (validatePaymentParams params w) as [o w'] eqn:Hrun.
  by rewrite (validatePaymentParams_world _ _ _ _ Hrun).
Qed.

Lemma keepsTopics_getOrCreateP2PTopic context : keepsTopics (getOrCreateP2PTopic context).
Proof.
  intros w. destruct (getOrCreateP2PTopic context w) as [o w'] eqn:Hrun.
  by rewrite (getOrCreateP2PTopic_world _ _ _ _ Hrun).
Qed.

(** A refused create has posted nothing. *)
Lemma create_failure_posts_nothing client context params w reason w' :
  createGaslessPayment client context params w = (ToolError reason, w') ->
  topics w' = topics w.
Proof.
  apply tool_error_appends_nothing.
  apply throwsBeforeWriting_bind; [apply keepsTopics_orNow|]. intros nonce'.
  apply throwsBeforeWriting_bind; [apply keepsTopics_orNow|]. intros expirationTime'.
  apply throwsBeforeWriting_bind; [apply keepsTopics_validatePaymentParams|]. intros _.
  apply throwsBeforeWriting_bind; [apply keepsTopics_fromOption|]. intros bytes.
  apply throwsBeforeWriting_bind; [apply keepsTopics_fromOption|]. intros sender'.
  apply throwsBeforeWriting_bind; [apply keepsTopics_dateNow|]. intros now.
  apply throwsBeforeWriting_bind; [apply keepsTopics_getOrCreateP2PTopic|]. intros topicId.
  apply throwsBeforeWriting_submit.
Qed.

(** The steps behind a successful create. *)
Lemma create_success client context params w response w' :
  createGaslessPayment client context params w = (ToolOk response, w') ->
  exists nonce' w1 expirationTime' w2 bytes sender',
    orNow (CreateParams.nonce params) 0 w = (Returned nonce', w1)
    /\ orNow (CreateParams.expirationTime params) (60 * 60 * 1000) w1
       = (Returned expirationTime', w2)
    /\ validatePaymentParams params w2 = (Returned tt, w2)
    /\ freezeToBytes
         (setMaxTransactionFee (maxFeeOrDefault (CreateParams.maxFee params))
            (createUnsignedTransaction params client))
       = Some bytes
    /\ operatorAccountId client = Some sender'
    /\ getOrCreateP2PTopic context (afterReading w2)
       = (Returned (created_topicId response), afterReading w2)
    /\ submitTopicMessage (created_topicId response)
         (paymentRequestMessage params client
            (Id.generatePaymentRequestId sender' (CreateParams.recipientAccountId params)
               nonce')
            (clock (ticks w2)) nonce' expirationTime'
            (maxFeeOrDefault (CreateParams.maxFee params)) bytes)
         (afterReading w2)
       = (Returned (created_sequenceNumber response), w')
    /\ created_paymentRequestId response
       = Id.generatePaymentRequestId sender' (CreateParams.recipientAccountId params) nonce'
    /\ created_transactionBytes response = bytes.
Proof.
  intros Hrun. apply tool_ok in Hrun. unfold createGaslessPayment in Hrun.
  apply bind_returned in Hrun as (nonce' & w1 & Hnonce & Hrun).
  apply bind_returned in Hrun as (expirationTime' & w2 & Hexp & Hrun).
  apply bind_returned in Hrun as ([] & w3 & Hvalid & Hrun).
  pose proof (validatePaymentParams_world _ _ _ _ Hvalid) as ->.
  apply bind_returned in Hrun as (bytes & w4 & Hbytes & Hrun).
  apply fromOption_returned in Hbytes as [Hbytes ->].
  apply bind_returned in Hrun as (sender' & w5 & Hsender & Hrun).
  apply fromOption_returned in Hsender as [Hsender ->].
  apply bind_returned in Hrun as (now & w6 & Hnow & Hrun).
  unfold dateNow in Hnow. injection Hnow as <- <-.
  apply bind_returned in Hrun as (topicId & w7 & Htopic & Hrun).
  pose proof (getOrCreateP2PTopic_world _ _ _ _ Htopic) as ->.
  apply bind_returned in Hrun as (seq & w8 & Hsubmit & Hret).
  unfold ret in Hret. injection Hret as <- <-.
  by exists nonce', w1, expirationTime', w2, bytes, sender'.
Qed.

(** X20.  A transfer of HBAR or of tokens for an amount that is zero or
    negative is refused: the create tool answers an error and posts
    nothing. *)
Theorem create_refuses_non_positive_amount
    (client : Client) (context : Context) (params : CreateParams.t) (w : World) :
  CreateParams.paymentType params <> NFT_TRANSFER ->
  (CreateParams.amount params <= 0)%Q ->
  exists reason w',
    createGaslessPayment client context params w = (ToolError reason, w')
    /\ topics w' = topics w.
Proof.
  intros Htype Hamount.
  destruct (createGaslessPayment client context params w) as [[response|reason] w'] eqn:Hrun.
  - apply create_success in Hrun as (? & ? & ? & w2 & ? & ? & _ & _ & Hvalid & _).
    exfalso. unfold validatePaymentParams, ret, throw in Hvalid.
    apply Qle_bool_iff in Hamount. rewrite Hamount, orb_true_r in Hvalid.
    destruct (CreateParams.paymentType params); [done| |done].
    by destruct (negb _).
  - exists reason, w'. split; [done|]. by eapply create_failure_posts_nothing.
Qed.

(** X21.  A transfer of tokens or of an NFT that names no token is refused:
    the create tool answers an error and posts nothing. *)
Theorem create_refuses_missing_token
    (client : Client) (context : Context) (params : CreateParams.t) (w : World) :
  CreateParams.paymentType params <> HBAR_TRANSFER ->
  truthyStr (CreateParams.tokenId params) = false ->
  exists reason w',
    createGaslessPayment client context params w = (ToolError reason, w')
    /\ topics w' = topics w.
Proof.
  intros Htype Htoken.
  destruct (createGaslessPayment client context params w) as [[response|reason] w'] eqn:Hrun.
  - apply create_success in Hrun as (? & ? & ? & w2 & ? & ? & _ & _ & Hvalid & _).
    exfalso. unfold validatePaymentParams, ret, throw in Hvalid.
    rewrite Htoken in Hvalid. by destruct (CreateParams.paymentType params).
  - exists reason, w'. split; [done|]. by eapply create_failure_posts_nothing.
Qed.

(** X22.  Without a topic, neither in the context nor in the environment
    variable P2P_GASLESS_TOPIC_ID, the create tool answers an error and posts
    nothing; an empty string counts as no topic. *)
Theorem create_needs_a_topic
    (client : Client) (context : Context) (params : CreateParams.t) (w : World) :
  truthyStr (p2pTopicId context) = false ->
  truthyStr (env_P2P_GASLESS_TOPIC_ID w) = false ->
  exists reason w',
    createGaslessPayment client context params w = (ToolError reason, w')
    /\ topics w' = topics w.
Proof.
  intros Hcontext Henv.
  destruct (createGaslessPayment client context params w) as [[response|reason] w'] eqn:Hrun.
  - apply create_success in Hrun
      as (n & w1 & e & w2 & ? & ? & Hnonce & Hexp & _ & _ & _ & Htopic & _).
    exfalso.
    destruct (orNow_returns (CreateParams.nonce params) 0 w)
      as (? & ? & Hn & _ & _ & Henv1 & _).
    rewrite Hnonce in Hn. injection Hn as <- <-.
    destruct (orNow_returns (CreateParams.expirationTime params) (60 * 60 * 1000) w1)
      as (? & ? & He & _ & _ & Henv2 & _).
    rewrite Hexp in He. injection He as <- <-.
    unfold getOrCreateP2PTopic, nonEmpty, ret, throw in Htopic.
    rewrite Hcontext in Htopic. cbn [afterReading env_P2P_GASLESS_TOPIC_ID] in Htopic.
    rewrite Henv2, Henv1, Henv in Htopic. done.
  - exists reason, w'. split; [done|]. by eapply create_failure_posts_nothing.
Qed.

(** What a successful create has posted. *)
Lemma create_posts client context params w response w' :
  createGaslessPayment client context params w = (ToolOk response, w') ->
  exists nonce' expirationTime' sender' now,
    operatorAccountId client = Some sender'
    /\ created_paymentRequestId response
       = Id.generatePaymentRequestId sender' (CreateParams.recipientAccountId params) nonce'
    /\ created_sequenceNumber response
       = Z.of_nat (List.length (topicLog w (created_topicId response))) + 1
    /\ topicLog w' (created_topicId response)
       = topicLog w (created_topicId response)
           ++ [mkTopicMessage (created_sequenceNumber response)
                 (consensusStamp (created_sequenceNumber response))
                 (Some (paymentRequestMessage params client
                          (created_paymentRequestId response) now nonce' expirationTime'
                          (maxFeeOrDefault (CreateParams.maxFee params))
                          (created_transactionBytes response)))]
    /\ (truthyNum (CreateParams.nonce params) = true ->
        CreateParams.nonce params = Some nonce')
    /\ (truthyNum (CreateParams.nonce params) = true ->
        truthyNum (CreateParams.expirationTime params) = false ->
        expirationTime' = clock (ticks w) + 60 * 60 * 1000)
    /\ (forall t, t <> created_topicId response -> topicLog w' t = topicLog w t)
    /\ ledger w' = ledger w.
Proof.
  intros Hrun.
  apply create_success in Hrun
    as (nonce' & w1 & expirationTime' & w2 & bytes & sender'
        & Hnonce & Hexp & _ & _ & Hsender & _ & Hsubmit & Hid & Hbytes).
  destruct (orNow_returns (CreateParams.nonce params) 0 w)
    as (? & ? & Hn & Htopics1 & Hledger1 & _ & Hgiven & _).
  rewrite Hnonce in Hn. injection Hn as <- <-.
  destruct (orNow_returns (CreateParams.expirationTime params) (60 * 60 * 1000) w1)
    as (? & ? & He & Htopics2 & Hledger2 & _ & _ & Hdefault).
  rewrite Hexp in He. injection He as <- <-.
  apply submitTopicMessage_effect in Hsubmit as (Hseq & Hlog & Hother & Hled).
  unfold topicLog in *. cbn [afterReading topics ledger] in *.
  rewrite Htopics2, Htopics1 in *.
  exists nonce', expirationTime', sender', (clock (ticks w2)).
  rewrite Hid, Hbytes. repeat split; try done.
  - intros Htruthy. by apply Hgiven.
  - intros Htruthy Hnone. destruct (Hgiven Htruthy) as [_ ->].
    by destruct (Hdefault Hnone) as [-> _].
  - congruence.
Qed.

(** X23.  A successful create appends exactly one message to its topic,
    under the sequence number it returns: a REQUEST that is "pending", names
    the operator as sender, keeps the sponsor the caller pinned, and whose id
    is the one returned, derived from the operator, the recipient and the
    nonce of the message.  A nonce given by the caller is used as it is, and
    when the caller gives a nonce but no expiration time the request expires
    one hour after the reading of the clock.  No other topic and nothing on
    the ledger is touched. *)
Theorem create_appends_one_pending_request
    (client : Client) (context : Context) (params : CreateParams.t)
    (w w' : World) (response : CreateResponse) :
  createGaslessPayment client context params w = (ToolOk response, w') ->
  exists entry request sender' nonce',
    topicLog w' (created_topicId response)
      = topicLog w (created_topicId response) ++ [entry]
    /\ sequence_number entry = created_sequenceNumber response
    /\ created_sequenceNumber response
       = Z.of_nat (List.length (topicLog w (created_topicId response))) + 1
    /\ message entry = Some request
    /\ type_ request = Some "gasless_payment_request"%string
    /\ status request = Some "pending"%string
    /\ operatorAccountId client = Some sender'
    /\ sender request = Some sender'
    /\ nonce request = Some nonce'
    /\ paymentRequestId request
       = Some (Id.generatePaymentRequestId sender'
                 (CreateParams.recipientAccountId params) nonce')
    /\ created_paymentRequestId response
       = Id.generatePaymentRequestId sender' (CreateParams.recipientAccountId params) nonce'
    /\ sponsorAccountId request = CreateParams.sponsorAccountId params
    /\ (truthyNum (CreateParams.nonce params) = true ->
        CreateParams.nonce params = Some nonce')
    /\ (truthyNum (CreateParams.nonce params) = true ->
        truthyNum (CreateParams.expirationTime params) = false ->
        expirationTime request = Some (clock (ticks w) + 60 * 60 * 1000))
    /\ (forall t, t <> created_topicId response -> topicLog w' t = topicLog w t)
    /\ ledger w' = ledger w.
Proof.
  intros Hrun.
  apply create_posts in Hrun
    as (nonce' & expirationTime' & sender' & now
        & Hsender & Hid & Hseq & Hlog & Hgiven & Hdefault & Hother & Hledger).
  eexists _, _, sender', nonce'.
  split; [exact Hlog|]. cbn. repeat split; try done.
  - by rewrite Hid.
  - intros Htruthy Hnone. by rewrite (Hdefault Htruthy Hnone).
Qed.

End CreateEffects.

Lemma X20_witness_zero_hbar :
  exists reason w',
    createGaslessPayment (net := Scenario.network) Scenario.payer Scenario.context
        (CreateParams.mk HBAR_TRANSFER "0.0.2002" None None 0 None None None None None)
        Scenario.world0
      = (ToolError reason, w')
    /\ topics w' = topics Scenario.world0.
Proof.
  apply (create_refuses_non_positive_amount (net := Scenario.network) Scenario.payer
           Scenario.context
           (CreateParams.mk HBAR_TRANSFER "0.0.2002" None None 0 None None None None None)
           Scenario.world0).
  - done.
  - vm_compute. congruence.
Defined.

Lemma X21_witness_nft_without_token :
  exists reason w',
    createGaslessPayment (net := Scenario.network) Scenario.payer Scenario.context
        (CreateParams.mk NFT_TRANSFER "0.0.2002" None (Some 1) 1 None None None None None)
        Scenario.world0
      = (ToolError reason, w')
    /\ topics w' = topics Scenario.world0.
Proof.
  apply (create_refuses_missing_token (net := Scenario.network) Scenario.payer
           Scenario.context
           (CreateParams.mk NFT_TRANSFER "0.0.2002" None (Some 1) 1 None None None None None)
           Scenario.world0).
  - done.
  - reflexivity.
Defined.

Lemma X22_witness_no_topic_configured :
  exists reason w',
    createGaslessPayment (net := Scenario.network) Scenario.payer Scenario.context
        (Scenario.intent None) (mkWorld ∅ [] 0 (Some ""%string))
      = (ToolError reason, w')
    /\ topics w' = topics (mkWorld ∅ [] 0 (Some ""%string)).
Proof.
  apply (create_needs_a_topic (net := Scenario.network) Scenario.payer Scenario.context
           (Scenario.intent None) (mkWorld ∅ [] 0 (Some ""%string))); reflexivity.
Defined.

Lemma X23_witness_request_of_the_payer :
  exists entry request sender' nonce',
    topicLog (Scenario.created (Some "0.0.3003"%string)) Scenario.topic
      = topicLog Scenario.world0 Scenario.topic ++ [entry]
    /\ sequence_number entry = 1
    /\ 1 = Z.of_nat (List.length (topicLog Scenario.world0 Scenario.topic)) + 1
    /\ message entry = Some request
    /\ type_ request = Some "gasless_payment_request"%string
    /\ status request = Some "pending"%string
    /\ Some "0.0.1001"%string = Some sender'
    /\ sender request = Some sender'
    /\ nonce request = Some nonce'
    /\ paymentRequestId request
       = Some (Id.generatePaymentRequestId sender' "0.0.2002" nonce')
    /\ Scenario.idA = Id.generatePaymentRequestId sender' "0.0.2002" nonce'
    /\ sponsorAccountId request = Some "0.0.3003"%string
    /\ (true = true -> Some 7 = Some nonce')
    /\ (true = true -> false = false ->
        expirationTime request = Some (1700000000000 + 60 * 60 * 1000))
    /\ (forall t, t <> Scenario.topic ->
          topicLog (Scenario.created (Some "0.0.3003"%string)) t
            = topicLog Scenario.world0 t)
    /\ ledger (Scenario.created (Some "0.0.3003"%string)) = ledger Scenario.world0.
Proof.
  apply (create_appends_one_pending_request (net := Scenario.network) Scenario.payer
           Scenario.context (Scenario.intent (Some "0.0.3003"%string)) Scenario.world0
           (Scenario.created (Some "0.0.3003"%string))
           (mkCreateResponse Scenario.topic 1 Scenario.idA "dHJhbnNmZXI=")).
  vm_compute. reflexivity.
Defined.

(** ** From one tool to the next *)

Lemma messageAt_skip (log : list TopicMessage) (seq : Z) (rest : list TopicMessage) :
  Forall (fun msg => sequence_number msg <> seq) log ->
  messageAt (log ++ rest) seq = messageAt rest seq.
Proof.
  unfold messageAt. induction 1 as [|msg log Hmsg _ IH]; [done|]. simpl.
  by rewrite (proj2 (Z.eqb_neq _ _) Hmsg).
Qed.

Lemma sequenced_below (log : list TopicMessage) :
  sequenced log ->
  Forall (fun msg => sequence_number msg <> Z.of_nat (List.length log) + 1) log.
Proof.
  intros Hseq. apply Forall_lookup. intros i msg Hi.
  rewrite (Hseq i msg Hi). apply lookup_lt_Some in Hi. lia.
Qed.

Lemma messageAt_appended (log : list TopicMessage) (entry : TopicMessage) :
  sequenced log ->
  sequence_number entry = Z.of_nat (List.length log) + 1 ->
  messageAt (log ++ [entry]) (sequence_number entry) = Some entry.
Proof.
  intros Hseq Hentry. rewrite messageAt_skip.
  - unfold messageAt. simpl. by rewrite Z.eqb_refl.
  - rewrite Hentry. by apply sequenced_below.
Qed.

Section Handover.

Context {net : Network}.

(** X24.  What create returns is what sign needs: on a topic whose messages
    are numbered 1, 2, 3, ... the sequence number returned by a successful
    create leads [getPaymentRequestFromTopic] back to the request just
    posted, with the id and the transaction bytes that were returned. *)
Theorem created_request_is_found_again
    (client : Client) (context : Context) (params : CreateParams.t)
    (w w' : World) (response : CreateResponse) :
  sequenced (topicLog w (created_topicId response)) ->
  mirrornodeService context = true ->
  createGaslessPayment client context params w = (ToolOk response, w') ->
  exists request,
    getPaymentRequestFromTopic (created_topicId response)
        (created_sequenceNumber response) context w'
      = (Returned request, w')
    /\ paymentRequestId request = Some (created_paymentRequestId response)
    /\ transactionBytes request = Some (created_transactionBytes response)
    /\ sender request = operatorAccountId client.
Proof.
  intros Hseq Hmirror Hrun.
  apply create_posts in Hrun
    as (nonce' & expirationTime' & sender' & now & _ & _ & Hnext & Hlog & _).
  exists (paymentRequestMessage params client (created_paymentRequestId response) now
            nonce' expirationTime' (maxFeeOrDefault (CreateParams.maxFee params))
            (created_transactionBytes response)).
  split; [|by repeat split].
  unfold getPaymentRequestFromTopic, rethrow, bind, getTopicMessages.
  rewrite Hmirror. simpl. rewrite Hlog.
  set (entry := mkTopicMessage _ _ _).
  change (created_sequenceNumber response) with (sequence_number entry) at 1.
  fold (messageAt (topicLog w (created_topicId response) ++ [entry])
          (sequence_number entry)).
  by rewrite messageAt_appended.
Qed.

(** X25.  What sign returns is what relay needs, and relay asks nothing more
    of the sponsor: on a topic whose messages are numbered 1, 2, 3, ... the
    sequence number returned by a successful sign leads
    [getSignedPaymentFromTopic] to the SIGNED message just posted, and that
    message passes the sponsor check for every operator. *)
Theorem signed_message_is_found_by_every_sponsor
    (client sponsor : Client) (context : Context) (params : SignParams.t)
    (w w' : World) (response : SignResponse) :
  sequenced (topicLog w (SignParams.topicId params)) ->
  signGaslessPayment client context params w = (ToolOk response, w') ->
  exists signedMessage,
    getSignedPaymentFromTopic (SignParams.topicId params)
        (signed_sequenceNumber response) context w'
      = (Returned signedMessage, w')
    /\ paymentRequestId signedMessage = Some (SignParams.paymentRequestId params)
    /\ validateSponsorAuthorization signedMessage sponsor w' = (Returned tt, w').
Proof.
  intros Hseq Hrun.
  pose proof (sign_success_passed_the_guards _ _ _ _ _ _ Hrun) as (pr & Hget & _).
  assert (Hmirror : mirrornodeService context = true).
  { unfold getPaymentRequestFromTopic in Hget.
    by destruct (mirrornodeService context). }
  apply sign_posts in Hrun
    as (paymentRequest & requestBytes & signedBytes & now
        & _ & _ & _ & _ & Hnext & Hlog & _).
  exists (signedPaymentMessage paymentRequest (SignParams.paymentRequestId params) now
            signedBytes (SignParams.sequenceNumber params)).
  split; [|split; [reflexivity|]].
  - unfold getSignedPaymentFromTopic, rethrow, bind, getTopicMessages.
    rewrite Hmirror. simpl. rewrite Hlog.
    set (entry := mkTopicMessage _ _ _).
    change (signed_sequenceNumber response) with (sequence_number entry) at 1.
    fold (messageAt (topicLog w (SignParams.topicId params) ++ [entry])
            (sequence_number entry)).
    by rewrite messageAt_appended.
  - apply signed_by_tool_is_open_to_every_sponsor.
Qed.

(** X26.  A request that create has posted is listed by the query: read in
    log order without criteria and without limit, the topic answers a record
    with the id and the sequence number that create returned, whatever else
    the topic holds. *)
Theorem created_request_is_listed
    (client : Client) (context : Context) (params : CreateParams.t)
    (w w' : World) (response : CreateResponse)
    (now : nat -> Z) (filters : option Query.Filters) (reads0 : nat) :
  Query.noCriteria filters = true -> Query.noLimit filters = true ->
  createGaslessPayment client context params w = (ToolOk response, w') ->
  exists p,
    p ∈ Query.queryPaymentsFromTopic now (topicLog w' (created_topicId response))
          filters reads0
    /\ Query.recordKey p
       = (Some (created_paymentRequestId response), created_sequenceNumber response).
Proof.
  intros Hall Hlimit Hrun.
  apply create_posts in Hrun
    as (nonce' & expirationTime' & sender' & at_ & _ & _ & _ & Hlog & _).
  rewrite (QueryFacts.noLimit_query _ _ _ _ Hlimit).
  assert (Hkey : (Some (created_paymentRequestId response), created_sequenceNumber response)
            ∈ map Query.recordKey
                (Query.payments
                   (Query.runLoop now filters (Query.initial reads0)
                      (topicLog w' (created_topicId response))))).
  { rewrite (ReadPath.runLoop_keys now filters Hall), Hlog. simpl.
    unfold Query.requestKeys. rewrite omap_app. apply elem_of_app. right.
    simpl. apply list_elem_of_singleton. reflexivity. }
  apply list_elem_of_fmap in Hkey as (p & Hp & Hin).
  exists p. split; [|done]. by rewrite ReadPath.sortPayments_perm.
Qed.

End Handover.

Lemma sequenced_nil : sequenced [].
Proof. intros i msg Hi. done. Qed.

Lemma X24_witness_first_request_found :
  exists request,
    getPaymentRequestFromTopic Scenario.topic 1 Scenario.context (Scenario.created None)
      = (Returned request, Scenario.created None)
    /\ paymentRequestId request = Some Scenario.idA
    /\ transactionBytes request = Some "dHJhbnNmZXI="%string
    /\ sender request = Some "0.0.1001"%string.
Proof.
  apply (created_request_is_found_again (net := Scenario.network) Scenario.payer
           Scenario.context (Scenario.intent None) Scenario.world0 (Scenario.created None)
           (mkCreateResponse Scenario.topic 1 Scenario.idA "dHJhbnNmZXI=")).
  - apply sequenced_nil.
  - reflexivity.
  - vm_compute. reflexivity.
Defined.

Lemma X25_witness_stranger_finds_signed_message :
  exists signedMessage,
    getSignedPaymentFromTopic Scenario.topic 2 Scenario.context
        (Scenario.signed (Some "0.0.3003"%string))
      = (Returned signedMessage, Scenario.signed (Some "0.0.3003"%string))
    /\ paymentRequestId signedMessage = Some Scenario.idA
    /\ validateSponsorAuthorization signedMessage Scenario.sponsorS'
         (Scenario.signed (Some "0.0.3003"%string))
       = (Returned tt, Scenario.signed (Some "0.0.3003"%string)).
Proof.
  apply (signed_message_is_found_by_every_sponsor (net := Scenario.network)
           Scenario.payer Scenario.sponsorS' Scenario.context Scenario.signA
           (Scenario.created (Some "0.0.3003"%string))
           (Scenario.signed (Some "0.0.3003"%string))
           (mkSignResponse Scenario.idA Scenario.topic 2)).
  - intros i msg Hi. destruct i as [|i]; vm_compute in Hi; [|done].
    injection Hi as <-. reflexivity.
  - vm_compute. reflexivity.
Defined.

Lemma X26_witness_first_request_listed :
  exists p,
    p ∈ Query.queryPaymentsFromTopic (fun _ => 0)
          (topicLog (Scenario.created None) Scenario.topic) None 0
    /\ Query.recordKey p = (Some Scenario.idA, 1).
Proof.
  apply (created_request_is_listed (net := Scenario.network) Scenario.payer
           Scenario.context (Scenario.intent None) Scenario.world0 (Scenario.created None)
           (mkCreateResponse Scenario.topic 1 Scenario.idA "dHJhbnNmZXI=")
           (fun _ => 0) None 0).
  - reflexivity.
  - reflexivity.
  - vm_compute. reflexivity.
Defined.

End ToolLaws.
